(** * A shallow embedding of [mcp_linear/linear_client.py]

    [LinearMCPClient] turns each operation into one or more GraphQL
    requests posted by [_execute_query], and projects the decoded JSON
    response with Python dictionary operations ([d.get(k, default)],
    [d[k]], [x[0]], iteration, truthiness).  The embedding keeps that
    structure:

    - decoded JSON and the Python values built from it are [pyval];
      a Python dict is an association list in insertion order;
    - Python exceptions are [exn], carrying the text [str(e)] gives;
    - the remote service is an arbitrary function [server] of the requests
      already sent and of the new request ([None] is a non-success HTTP
      status, on which [raise_for_status] raises);
    - a client method is a computation in [M], which appends every request
      it posts to a trace and ends in a value or a raised exception.

    GraphQL documents are named by the constructors of [doc] instead of
    their text: each method uses fixed documents only. *)

From Stdlib Require Import String List ZArith Bool Ascii Lia.
Import ListNotations.
Open Scope string_scope.
Set Warnings "-register-all".

(** ** Python values *)

Inductive pyval : Type :=
| PNone
| PBool (b : bool)
| PInt (z : Z)
| PStr (s : string)
| PList (l : list pyval)
| PDict (kv : list (string * pyval)).

(** [kv.get(k)] on a dict: the entry of key [k]. *)
Fixpoint lookup (kv : list (string * pyval)) (k : string) : option pyval :=
  match kv with
  | [] => None
  | (k', v) :: kv' => if String.eqb k k' then Some v else lookup kv' k
  end.

(** [d[k] = v]: replaces the entry of [k] in place, or appends it. *)
Fixpoint dict_set (kv : list (string * pyval)) (k : string) (v : pyval)
  : list (string * pyval) :=
  match kv with
  | [] => [(k, v)]
  | (k', v') :: kv' =>
      if String.eqb k k' then (k, v) :: kv' else (k', v') :: dict_set kv' k v
  end.

(** Python truthiness ([if x:], [not x]). *)
Definition truthy (v : pyval) : bool :=
  match v with
  | PNone => false
  | PBool b => b
  | PInt z => negb (Z.eqb z 0)
  | PStr s => negb (String.eqb s "")
  | PList l => match l with [] => false | _ => true end
  | PDict kv => match kv with [] => false | _ => true end
  end.

Definition type_name (v : pyval) : string :=
  match v with
  | PNone => "NoneType"
  | PBool _ => "bool"
  | PInt _ => "int"
  | PStr _ => "str"
  | PList _ => "list"
  | PDict _ => "dict"
  end.

(** [str.lower()]: the model's strings are ASCII, where Python lowers
    exactly the letters A..Z. *)
Definition lower_ascii (c : ascii) : ascii :=
  let n := nat_of_ascii c in
  if (65 <=? n)%nat && (n <=? 90)%nat then ascii_of_nat (n + 32) else c.

Fixpoint lower (s : string) : string :=
  match s with
  | EmptyString => EmptyString
  | String c s' => String (lower_ascii c) (lower s')
  end.

(** ["-" in s] *)
Fixpoint has_dash (s : string) : bool :=
  match s with
  | EmptyString => false
  | String c s' => Ascii.eqb c "-"%char || has_dash s'
  end.

(** Decimal text of an integer, as [str(n)] writes it. *)
Fixpoint digits (fuel : nat) (n : N) (acc : string) : string :=
  match fuel with
  | O => acc
  | S f =>
      let acc' := String (ascii_of_N (48 + N.modulo n 10)) acc in
      if (n <? 10)%N then acc' else digits f (N.div n 10) acc'
  end.

Definition z_to_string (z : Z) : string :=
  match z with
  | Zneg p => "-" ++ digits (Pos.size_nat p) (Npos p) ""
  | _ => digits (S (N.size_nat (Z.to_N z))) (Z.to_N z) ""
  end.

(** [str(v)] for the scalar values the client formats; containers are
    only formatted by the client when the remote sends a container where
    a scalar is expected, and their text is not modelled. *)
Definition py_str (v : pyval) : string :=
  match v with
  | PNone => "None"
  | PBool true => "True"
  | PBool false => "False"
  | PInt z => z_to_string z
  | PStr s => s
  | PList _ => "<list>"
  | PDict _ => "<dict>"
  end.

(** ** Exceptions, with the text [str(e)] gives *)

Inductive exn : Type :=
| AttributeError (msg : string)
| KeyError (msg : string)
| IndexError (msg : string)
| TypeError (msg : string)
| ValueError (msg : string)
| Exception (msg : string)
| HTTPStatusError (msg : string).

Definition exn_str (e : exn) : string :=
  match e with
  | AttributeError m | KeyError m | IndexError m | TypeError m
  | ValueError m | Exception m | HTTPStatusError m => m
  end.

(** ** Requests and the client monad *)

Inductive doc : Type :=
| ListIssuesQ | GetIssueQ | StatesQ | CreateIssueM | IssueTeamQ
| UpdateIssueM | TeamByKeyQ | SearchIssuesQ | UserIssuesQ | ViewerIssuesQ
| CreateCommentM | GetTeamIssuesQ | ViewerQ | OrganizationQ.

Record request : Type := mk_request { rq_doc : doc; rq_vars : pyval }.

Definition trace := list request.

Inductive outcome (A : Type) : Type :=
| Ok (a : A)
| Raise (e : exn).
Arguments Ok {A} a.
Arguments Raise {A} e.

Definition M (A : Type) : Type := trace -> trace * outcome A.

Definition ret {A} (a : A) : M A := fun tr => (tr, Ok a).

Definition throw {A} (e : exn) : M A := fun tr => (tr, Raise e).

Definition bind {A B} (m : M A) (k : A -> M B) : M B :=
  fun tr =>
    match m tr with
    | (tr', Ok a) => k a tr'
    | (tr', Raise e) => (tr', Raise e)
    end.

(** [try: m except Exception as e: h(e)] *)
Definition try_except {A} (m : M A) (h : exn -> M A) : M A :=
  fun tr =>
    match m tr with
    | (tr', Ok a) => (tr', Ok a)
    | (tr', Raise e) => h e tr'
    end.

Notation "x <- m ;; k" := (bind m (fun x => k))
  (at level 61, m at next level, right associativity).

(** ** Python operations on values *)

(** [d.get(k, dflt)]; only a dict has [get]. *)
Definition pget (d : pyval) (k : string) (dflt : pyval) : M pyval :=
  match d with
  | PDict kv => ret (match lookup kv k with Some v => v | None => dflt end)
  | _ => throw (AttributeError
                  ("'" ++ type_name d ++ "' object has no attribute 'get'"))
  end.

(** [d[k]] with a string key. *)
Definition pitem (d : pyval) (k : string) : M pyval :=
  match d with
  | PDict kv =>
      match lookup kv k with
      | Some v => ret v
      | None => throw (KeyError ("'" ++ k ++ "'"))
      end
  | PList _ => throw (TypeError "list indices must be integers or slices, not str")
  | PStr _ => throw (TypeError "string indices must be integers, not 'str'")
  | _ => throw (TypeError ("'" ++ type_name d ++ "' object is not subscriptable"))
  end.

(** [x[0]] *)
Definition pindex0 (x : pyval) : M pyval :=
  match x with
  | PList (v :: _) => ret v
  | PList [] => throw (IndexError "list index out of range")
  | PDict _ => throw (KeyError "0")
  | PStr (String c _) => ret (PStr (String c EmptyString))
  | PStr EmptyString => throw (IndexError "string index out of range")
  | _ => throw (TypeError ("'" ++ type_name x ++ "' object is not subscriptable"))
  end.

(** [v.lower()] *)
Definition plower (v : pyval) : M pyval :=
  match v with
  | PStr s => ret (PStr (lower s))
  | _ => throw (AttributeError
                  ("'" ++ type_name v ++ "' object has no attribute 'lower'"))
  end.

(** The elements [for x in v] runs over. *)
Fixpoint str_chars (s : string) : list pyval :=
  match s with
  | EmptyString => []
  | String c s' => PStr (String c EmptyString) :: str_chars s'
  end.

Definition piter (v : pyval) : M (list pyval) :=
  match v with
  | PList l => ret l
  | PDict kv => ret (map (fun p => PStr (fst p)) kv)
  | PStr s => ret (str_chars s)
  | _ => throw (TypeError ("'" ++ type_name v ++ "' object is not iterable"))
  end.

(** A list comprehension [[f(x) for x in xs]]. *)
Fixpoint map_m {A B} (f : A -> M B) (xs : list A) : M (list B) :=
  match xs with
  | [] => ret []
  | x :: xs' => y <- f x ;; ys <- map_m f xs' ;; ret (y :: ys)
  end.

Definition opt_str (o : option string) : pyval :=
  match o with Some s => PStr s | None => PNone end.

Definition opt_int (o : option Z) : pyval :=
  match o with Some z => PInt z | None => PNone end.

Definition dict0 : pyval := PDict [].
Definition list0 : pyval := PList [].

Definition opt_labels (o : option (list string)) : pyval :=
  match o with Some l => PList (map PStr l) | None => PNone end.

(** ** Pure steps of the client methods *)

(** The loop of [create_issue] and [update_issue] over the team's states:
    [for state in states: if state["name"].lower() == status.lower():
    state_id = state["id"]; break]; [state_id] starts as [None]. *)
Fixpoint scan_states (states : list pyval) (status : string) : M pyval :=
  match states with
  | [] => ret PNone
  | state :: rest =>
      nm <- pitem state "name" ;;
      l <- plower nm ;;
      if match l with PStr s => String.eqb s (lower status) | _ => false end
      then pitem state "id"
      else scan_states rest status
  end.

(** The [input] object of [create_issue]. *)
Definition create_input (title team_id : string) (description : option string)
  (priority : option Z) (state_id : pyval) : pyval :=
  PDict [("title", PStr title); ("teamId", PStr team_id);
         ("description", opt_str description); ("priority", opt_int priority);
         ("stateId", state_id)].

(** [update_input] of [update_issue], filled by [is not None] tests. *)
Definition update_input (title description : option string)
  (priority : option Z) (state_id : pyval) : list (string * pyval) :=
  let u0 := [] in
  let u1 := match title with Some t => dict_set u0 "title" (PStr t) | None => u0 end in
  let u2 := match description with
            | Some x => dict_set u1 "description" (PStr x) | None => u1 end in
  let u3 := match priority with
            | Some p => dict_set u2 "priority" (PInt p) | None => u2 end in
  match state_id with PNone => u3 | _ => dict_set u3 "stateId" state_id end.

(** [filter_conditions] of [search_issues]; [team] is the value of the
    variable [team_id] after the key lookup. *)
Definition search_filter (query : option string) (team : pyval)
  (status assignee_id : option string) (labels : option (list string))
  (priority : option Z) : list (string * pyval) :=
  let f0 := [] in
  let f1 := if truthy (opt_str query)
            then dict_set f0 "or"
                   (PList [PDict [("title", PDict [("contains", opt_str query)])];
                           PDict [("description", PDict [("contains", opt_str query)])]])
            else f0 in
  let f2 := if truthy team
            then dict_set f1 "team" (PDict [("id", PDict [("eq", team)])])
            else f1 in
  let f3 := if truthy (opt_str status)
            then dict_set f2 "state" (PDict [("name", PDict [("eq", opt_str status)])])
            else f2 in
  let f4 := if truthy (opt_str assignee_id)
            then dict_set f3 "assignee" (PDict [("id", PDict [("eq", opt_str assignee_id)])])
            else f3 in
  let f5 := if truthy (opt_labels labels)
            then dict_set f4 "labels"
                   (PDict [("some", PDict [("name", PDict [("in", opt_labels labels)])])])
            else f4 in
  match priority with
  | Some p => dict_set f5 "priority" (PDict [("eq", PInt p)])
  | None => f5
  end.

Definition search_variables (limit : Z) (filter : list (string * pyval)) : pyval :=
  PDict [("first", PInt limit); ("filter", PDict filter)].

(** [variables["input"]] of [add_comment], filled by truthiness tests. *)
Definition comment_input (issue_id body : string)
  (create_as_user display_icon_url : option string) : list (string * pyval) :=
  let i0 := [("issueId", PStr issue_id); ("body", PStr body)] in
  let i1 := if truthy (opt_str create_as_user)
            then dict_set i0 "createAsUser" (opt_str create_as_user) else i0 in
  if truthy (opt_str display_icon_url)
  then dict_set i1 "displayIconUrl" (opt_str display_icon_url) else i1.

(** *** Projections of response nodes (the dict literals of the methods,
    evaluated left to right) *)

(** [list_issues] *)
Definition project_list_issue (issue : pyval) : M pyval :=
  id <- pitem issue "id" ;;
  name <- pitem issue "title" ;;
  identifier <- pitem issue "identifier" ;;
  title <- pitem issue "title" ;;
  identifier2 <- pitem issue "identifier" ;;
  priority <- pget issue "priority" PNone ;;
  st <- pget issue "state" dict0 ;; status <- pget st "name" PNone ;;
  asg <- pget issue "assignee" dict0 ;; assignee <- pget asg "name" PNone ;;
  tm <- pget issue "team" dict0 ;; team <- pget tm "name" PNone ;;
  ret (PDict [("uri", PStr ("linear-issue:///" ++ py_str id));
              ("mimeType", PStr "application/json");
              ("name", name);
              ("description", PStr ("Linear issue " ++ py_str identifier ++ ": "
                                     ++ py_str title));
              ("metadata", PDict [("identifier", identifier2); ("priority", priority);
                                  ("status", status); ("assignee", assignee);
                                  ("team", team)])]).

(** [get_issue] *)
Definition project_issue (issue : pyval) : M pyval :=
  id <- pitem issue "id" ;;
  identifier <- pitem issue "identifier" ;;
  title <- pitem issue "title" ;;
  description <- pitem issue "description" ;;
  priority <- pget issue "priority" PNone ;;
  st <- pget issue "state" dict0 ;; status <- pget st "name" PNone ;;
  asg <- pget issue "assignee" dict0 ;; assignee <- pget asg "name" PNone ;;
  tm <- pget issue "team" dict0 ;; team <- pget tm "name" PNone ;;
  url <- pitem issue "url" ;;
  ret (PDict [("id", id); ("identifier", identifier); ("title", title);
              ("description", description); ("priority", priority);
              ("status", status); ("assignee", assignee); ("team", team);
              ("url", url)]).

(** [issue["state"]["name"] if issue.get("state") else None] *)
Definition state_name_if (issue : pyval) : M pyval :=
  s <- pget issue "state" PNone ;;
  if truthy s then st <- pitem issue "state" ;; pitem st "name" else ret PNone.

(** [create_issue] ([stamp] = "createdAt") and [update_issue]
    ([stamp] = "updatedAt"). *)
Definition project_mutated (stamp out : string) (issue : pyval) : M pyval :=
  id <- pitem issue "id" ;;
  identifier <- pitem issue "identifier" ;;
  title <- pitem issue "title" ;;
  description <- pitem issue "description" ;;
  priority <- pget issue "priority" PNone ;;
  state <- state_name_if issue ;;
  tm <- pitem issue "team" ;; team <- pitem tm "key" ;;
  url <- pitem issue "url" ;;
  stamped <- pitem issue stamp ;;
  ret (PDict [("id", id); ("identifier", identifier); ("title", title);
              ("description", description); ("priority", priority);
              ("state", state); ("team", team); ("url", url); (out, stamped)]).

(** [search_issues] *)
Definition project_search_issue (issue : pyval) : M pyval :=
  id <- pitem issue "id" ;;
  identifier <- pitem issue "identifier" ;;
  title <- pitem issue "title" ;;
  description <- pget issue "description" PNone ;;
  priority <- pget issue "priority" PNone ;;
  st <- pget issue "state" dict0 ;; state <- pget st "name" PNone ;;
  a <- pget issue "assignee" PNone ;;
  assignee <- (if truthy a
               then a1 <- pitem issue "assignee" ;; aid <- pitem a1 "id" ;;
                    a2 <- pitem issue "assignee" ;; aname <- pitem a2 "name" ;;
                    ret (PDict [("id", aid); ("name", aname)])
               else ret PNone) ;;
  t <- pget issue "team" PNone ;;
  team <- (if truthy t
           then t1 <- pitem issue "team" ;; tid <- pitem t1 "id" ;;
                t2 <- pitem issue "team" ;; tkey <- pitem t2 "key" ;;
                ret (PDict [("id", tid); ("key", tkey)])
           else ret PNone) ;;
  l <- pget issue "labels" PNone ;;
  labels <- (if truthy l
             then ls <- pget issue "labels" dict0 ;; ns <- pget ls "nodes" list0 ;;
                  xs <- piter ns ;; names <- map_m (fun label => pitem label "name") xs ;;
                  ret (PList names)
             else ret list0) ;;
  url <- pitem issue "url" ;;
  created <- pitem issue "createdAt" ;;
  ret (PDict [("id", id); ("identifier", identifier); ("title", title);
              ("description", description); ("priority", priority);
              ("state", state); ("assignee", assignee); ("team", team);
              ("labels", labels); ("url", url); ("created_at", created)]).

(** [get_user_issues] *)
Definition project_user_issue (issue : pyval) : M pyval :=
  id <- pitem issue "id" ;;
  identifier <- pitem issue "identifier" ;;
  title <- pitem issue "title" ;;
  description <- pget issue "description" PNone ;;
  priority <- pget issue "priority" PNone ;;
  state <- state_name_if issue ;;
  tm <- pitem issue "team" ;; team <- pitem tm "key" ;;
  url <- pitem issue "url" ;;
  created <- pitem issue "createdAt" ;;
  archived <- pget issue "archivedAt" PNone ;;
  ret (PDict [("id", id); ("identifier", identifier); ("title", title);
              ("description", description); ("priority", priority);
              ("state", state); ("team", team); ("url", url);
              ("created_at", created); ("archived_at", archived)]).

(** [get_team_issues] *)
Definition project_team_issue (issue : pyval) : M pyval :=
  id <- pitem issue "id" ;;
  identifier <- pitem issue "identifier" ;;
  title <- pitem issue "title" ;;
  description <- pget issue "description" PNone ;;
  priority <- pget issue "priority" PNone ;;
  st <- pget issue "state" dict0 ;; status <- pget st "name" PNone ;;
  asg <- pget issue "assignee" dict0 ;; assignee <- pget asg "name" PNone ;;
  url <- pitem issue "url" ;;
  ret (PDict [("id", id); ("identifier", identifier); ("title", title);
              ("description", description); ("priority", priority);
              ("status", status); ("assignee", assignee); ("url", url)]).

(** [{"id": team["id"], "name": team["name"], "key": team["key"]}] *)
Definition project_team (team : pyval) : M pyval :=
  id <- pitem team "id" ;; name <- pitem team "name" ;; key <- pitem team "key" ;;
  ret (PDict [("id", id); ("name", name); ("key", key)]).

(** a user of [get_organization] *)
Definition project_org_user (user : pyval) : M pyval :=
  id <- pitem user "id" ;; name <- pitem user "name" ;;
  email <- pget user "email" PNone ;; admin <- pget user "admin" PNone ;;
  active <- pget user "active" PNone ;;
  ret (PDict [("id", id); ("name", name); ("email", email);
              ("admin", admin); ("active", active)]).

(** ** The client methods *)

Section Client.

(** The remote service: its answer to a request, given the requests
    posted before it; [None] is a non-success HTTP status. *)
Variable server : trace -> request -> option pyval.

(** [_execute_query]: one POST, recorded in the trace. *)
Definition execute_query (d : doc) (variables : pyval) : M pyval :=
  fun tr =>
    let rq := mk_request d (if truthy variables then variables else dict0) in
    match server tr rq with
    | Some resp => ((tr ++ [rq])%list, Ok resp)
    | None => ((tr ++ [rq])%list, Raise (HTTPStatusError "non-success response status"))
    end.

(** [list_issues] *)
Definition list_issues (limit : Z) : M pyval :=
  result <- execute_query ListIssuesQ (PDict [("first", PInt limit)]) ;;
  d <- pget result "data" dict0 ;; i <- pget d "issues" dict0 ;;
  issues <- pget i "nodes" list0 ;;
  xs <- piter issues ;;
  ys <- map_m project_list_issue xs ;;
  ret (PList ys).

(** [get_issue] *)
Definition get_issue (issue_id : string) : M pyval :=
  result <- execute_query GetIssueQ (PDict [("id", PStr issue_id)]) ;;
  d <- pget result "data" dict0 ;;
  issue <- pget d "issue" dict0 ;;
  if negb (truthy issue)
  then throw (ValueError ("Issue " ++ issue_id ++ " not found"))
  else project_issue issue.

(** The States query and [.get("data", {}).get("team", {})
    .get("states", {}).get("nodes", [])]. *)
Definition fetch_states (team_id : pyval) : M pyval :=
  state_result <- execute_query StatesQ (PDict [("teamId", team_id)]) ;;
  d <- pget state_result "data" dict0 ;; t <- pget d "team" dict0 ;;
  s <- pget t "states" dict0 ;; pget s "nodes" list0.

(** The [state_id] computation of [create_issue]. *)
Definition create_state_id (team_id : string) (status : option string) : M pyval :=
  match status with
  | Some s =>
      if truthy (PStr s)
      then states <- fetch_states (PStr team_id) ;;
           xs <- piter states ;; scan_states xs s
      else ret PNone
  | None => ret PNone
  end.

(** [create_issue] *)
Definition create_issue (title team_id : string) (description : option string)
  (priority : option Z) (status : option string) : M pyval :=
  state_id <- create_state_id team_id status ;;
  result <- execute_query CreateIssueM
              (PDict [("input", create_input title team_id description priority state_id)]) ;;
  d <- pget result "data" dict0 ;;
  issue_result <- pget d "issueCreate" dict0 ;;
  success <- pget issue_result "success" PNone ;;
  if negb (truthy success) then ret PNone
  else issue <- pget issue_result "issue" dict0 ;;
       project_mutated "createdAt" "created_at" issue.

(** The [state_id] computation of [update_issue]: the issue's team first. *)
Definition update_state_id (issue_id : string) (status : option string) : M pyval :=
  match status with
  | Some s =>
      if truthy (PStr s)
      then issue_result <- execute_query IssueTeamQ (PDict [("id", PStr issue_id)]) ;;
           d <- pget issue_result "data" dict0 ;; i <- pget d "issue" dict0 ;;
           t <- pget i "team" dict0 ;; team_id <- pget t "id" PNone ;;
           if truthy team_id
           then states <- fetch_states team_id ;;
                xs <- piter states ;; scan_states xs s
           else ret PNone
      else ret PNone
  | None => ret PNone
  end.

Definition update_variables (issue_id : string) (title description : option string)
  (priority : option Z) (state_id : pyval) : pyval :=
  PDict [("id", PStr issue_id);
         ("input", PDict (update_input title description priority state_id))].

(** [update_issue] *)
Definition update_issue (issue_id : string) (title description : option string)
  (priority : option Z) (status : option string) : M pyval :=
  state_id <- update_state_id issue_id status ;;
  result <- execute_query UpdateIssueM
              (update_variables issue_id title description priority state_id) ;;
  d <- pget result "data" dict0 ;;
  issue_result <- pget d "issueUpdate" dict0 ;;
  success <- pget issue_result "success" PNone ;;
  if negb (truthy success) then ret PNone
  else issue <- pget issue_result "issue" dict0 ;;
       project_mutated "updatedAt" "updated_at" issue.

(** The team-key substitution of [search_issues]: the value of the
    variable [team_id] after it. *)
Definition search_team (team_id : option string) : M pyval :=
  match team_id with
  | Some t =>
      if truthy (PStr t) && negb (has_dash t)
      then team_result <- execute_query TeamByKeyQ (PDict [("key", PStr t)]) ;;
           d <- pget team_result "data" dict0 ;;
           team_data <- pget d "team" dict0 ;;
           if truthy team_data then pget team_data "id" PNone else ret (PStr t)
      else ret (PStr t)
  | None => ret PNone
  end.

(** The [try] block of [search_issues]. *)
Definition search_body (variables : pyval) : M pyval :=
  result <- execute_query SearchIssuesQ variables ;;
  data <- pget result "data" dict0 ;;
  if negb (truthy data)
  then errors <- pget result "errors" (PList [dict0]) ;;
       e0 <- pindex0 errors ;;
       error <- pget e0 "message" (PStr "Unknown error") ;;
       throw (Exception (py_str error))
  else is <- pget data "issues" dict0 ;; nodes <- pget is "nodes" list0 ;;
       xs <- piter nodes ;;
       ys <- map_m project_search_issue xs ;;
       ret (PList ys).

(** [search_issues] *)
Definition search_issues (query team_id status assignee_id : option string)
  (labels : option (list string)) (priority : option Z) (limit : Z) : M pyval :=
  team <- search_team team_id ;;
  try_except
    (search_body (search_variables limit
                    (search_filter query team status assignee_id labels priority)))
    (fun e => throw (Exception ("Search failed: " ++ exn_str e))).

(** [get_user_issues] *)
Definition get_user_issues (user_id : option string) (include_archived : bool)
  (limit : Z) : M pyval :=
  issues <- (if truthy (opt_str user_id)
             then result <- execute_query UserIssuesQ
                              (PDict [("userId", opt_str user_id); ("first", PInt limit);
                                      ("includeArchived", PBool include_archived)]) ;;
                  d <- pget result "data" dict0 ;; u <- pget d "user" dict0 ;;
                  a <- pget u "assignedIssues" dict0 ;; pget a "nodes" list0
             else result <- execute_query ViewerIssuesQ
                              (PDict [("first", PInt limit);
                                      ("includeArchived", PBool include_archived)]) ;;
                  d <- pget result "data" dict0 ;; v <- pget d "viewer" dict0 ;;
                  a <- pget v "assignedIssues" dict0 ;; pget a "nodes" list0) ;;
  xs <- piter issues ;;
  ys <- map_m project_user_issue xs ;;
  ret (PList ys).

(** [add_comment] *)
Definition add_comment (issue_id body : string)
  (create_as_user display_icon_url : option string) : M pyval :=
  result <- execute_query CreateCommentM
              (PDict [("input", PDict (comment_input issue_id body
                                          create_as_user display_icon_url))]) ;;
  d <- pget result "data" dict0 ;;
  comment_result <- pget d "commentCreate" dict0 ;;
  success <- pget comment_result "success" PNone ;;
  if negb (truthy success) then ret PNone
  else comment <- pget comment_result "comment" dict0 ;;
       id <- pitem comment "id" ;;
       cbody <- pitem comment "body" ;;
       u <- pget comment "user" PNone ;;
       user <- (if truthy u then cu <- pitem comment "user" ;; pitem cu "name"
                else ret PNone) ;;
       created <- pitem comment "createdAt" ;;
       ret (PDict [("id", id); ("body", cbody); ("user", user);
                   ("created_at", created)]).

(** [get_team_issues] *)
Definition get_team_issues (team_id : string) : M pyval :=
  result <- execute_query GetTeamIssuesQ (PDict [("teamId", PStr team_id)]) ;;
  d <- pget result "data" dict0 ;; t <- pget d "team" PNone ;;
  if negb (truthy t)
  then throw (ValueError ("Team " ++ team_id ++ " not found"))
  else d2 <- pget result "data" dict0 ;; t2 <- pget d2 "team" dict0 ;;
       is <- pget t2 "issues" dict0 ;; nodes <- pget is "nodes" list0 ;;
       xs <- piter nodes ;;
       ys <- map_m project_team_issue xs ;;
       ret (PList ys).

(** [get_viewer] ([_execute_query(query)], variables [None]) *)
Definition get_viewer : M pyval :=
  result <- execute_query ViewerQ PNone ;;
  d <- pget result "data" dict0 ;; viewer <- pget d "viewer" dict0 ;;
  d2 <- pget result "data" dict0 ;; organization <- pget d2 "organization" dict0 ;;
  vid <- pitem viewer "id" ;; vname <- pitem viewer "name" ;;
  email <- pget viewer "email" PNone ;; admin <- pget viewer "admin" PNone ;;
  ts <- pget viewer "teams" dict0 ;; tn <- pget ts "nodes" list0 ;;
  txs <- piter tn ;; teams <- map_m project_team txs ;;
  oid <- pitem organization "id" ;; oname <- pitem organization "name" ;;
  okey <- pitem organization "urlKey" ;;
  ret (PDict [("id", vid); ("name", vname); ("email", email); ("admin", admin);
              ("teams", PList teams);
              ("organization", PDict [("id", oid); ("name", oname);
                                      ("urlKey", okey)])]).

(** [get_organization] *)
Definition get_organization : M pyval :=
  result <- execute_query OrganizationQ PNone ;;
  d <- pget result "data" dict0 ;; organization <- pget d "organization" dict0 ;;
  oid <- pitem organization "id" ;; oname <- pitem organization "name" ;;
  okey <- pitem organization "urlKey" ;;
  ts <- pget organization "teams" dict0 ;; tn <- pget ts "nodes" list0 ;;
  txs <- piter tn ;; teams <- map_m project_team txs ;;
  us <- pget organization "users" dict0 ;; un <- pget us "nodes" list0 ;;
  uxs <- piter un ;; users <- map_m project_org_user uxs ;;
  ret (PDict [("id", oid); ("name", oname); ("urlKey", okey);
              ("teams", PList teams); ("users", PList users)]).

End Client.

(** The operations of the client facade, with their arguments. *)
Inductive call : Type :=
| CreateIssue (title team_id : string) (description : option string)
    (priority : option Z) (status : option string)
| UpdateIssue (issue_id : string) (title description : option string)
    (priority : option Z) (status : option string)
| SearchIssues (query team_id status assignee_id : option string)
    (labels : option (list string)) (priority : option Z) (limit : Z)
| GetUserIssues (user_id : option string) (include_archived : bool) (limit : Z)
| AddComment (issue_id body : string) (create_as_user display_icon_url : option string)
| GetIssue (issue_id : string)
| GetTeamIssues (team_id : string)
| GetViewer
| GetOrganization.

Definition run_call (server : trace -> request -> option pyval) (c : call) : M pyval :=
  match c with
  | CreateIssue ti te d p s => create_issue server ti te d p s
  | UpdateIssue i ti d p s => update_issue server i ti d p s
  | SearchIssues q t s a l p n => search_issues server q t s a l p n
  | GetUserIssues u a n => get_user_issues server u a n
  | AddComment i b c u => add_comment server i b c u
  | GetIssue i => get_issue server i
  | GetTeamIssues t => get_team_issues server t
  | GetViewer => get_viewer server
  | GetOrganization => get_organization server
  end.

(** * The MCP server of [mcp_linear/main.py]

    Each tool returns a string: a plain error text, or [json.dumps(v)] of
    a dict [v], kept here as the value it serializes.  Each resource
    returns a dict.  The global [linear_client] is [None] until
    [initialize_client] ran, and otherwise the client of a remote
    service. *)

Inductive tool_text : Type :=
| Text (s : string)
| Dumps (v : pyval).

Definition nl : string := String (ascii_of_nat 10) EmptyString.

(** [sep.join(xs)] *)
Fixpoint join (sep : string) (xs : list string) : string :=
  match xs with
  | [] => ""
  | [x] => x
  | x :: xs' => x ++ sep ++ join sep xs'
  end.

(** [len(v)] *)
Definition plen (v : pyval) : M Z :=
  match v with
  | PList l => ret (Z.of_nat (length l))
  | PDict kv => ret (Z.of_nat (length kv))
  | PStr s => ret (Z.of_nat (String.length s))
  | _ => throw (TypeError ("object of type '" ++ type_name v ++ "' has no len()"))
  end.

(** [f"{v or dflt}"] *)
Definition or_text (v : pyval) (dflt : string) : string :=
  if truthy v then py_str v else dflt.

(** One line of the [issue_list] texts; [unknown] is the text of a falsy
    state ("None" in [linear_search_issues], "Unknown" in
    [linear_get_user_issues]). *)
Definition issue_line (unknown : string) (issue : pyval) : M string :=
  identifier <- pget issue "identifier" PNone ;;
  title <- pget issue "title" PNone ;;
  priority <- pget issue "priority" PNone ;;
  state <- pget issue "state" PNone ;;
  url <- pget issue "url" PNone ;;
  ret ("- " ++ py_str identifier ++ ": " ++ py_str title ++ nl ++ "  "
       ++ "Priority: " ++ or_text priority "None" ++ ", "
       ++ "Status: " ++ or_text state unknown ++ nl ++ "  "
       ++ py_str url).

Module Main.

Section Server.

Variable linear_client : option (trace -> request -> option pyval).

Definition not_initialized : string := "Error: Linear client not initialized".

Definition linear_create_issue (title team_id : string) (description : option string)
  (priority : option Z) (status : option string) : M tool_text :=
  match linear_client with
  | None => ret (Text not_initialized)
  | Some client =>
      try_except
        (issue <- create_issue client title team_id description priority status ;;
         if negb (truthy issue) then ret (Text "Error: Failed to create issue")
         else identifier <- pget issue "identifier" PNone ;;
              ititle <- pget issue "title" PNone ;;
              ret (Dumps (PDict [("message", PStr ("Created issue " ++ py_str identifier
                                                   ++ ": " ++ py_str ititle));
                                 ("issue", issue)])))
        (fun e => ret (Text ("Error: Failed to create issue - " ++ exn_str e)))
  end.

Definition linear_update_issue (id : string) (title description : option string)
  (priority : option Z) (status : option string) : M tool_text :=
  match linear_client with
  | None => ret (Text not_initialized)
  | Some client =>
      try_except
        (issue <- update_issue client id title description priority status ;;
         if negb (truthy issue) then ret (Text "Error: Failed to update issue")
         else identifier <- pget issue "identifier" PNone ;;
              ret (Dumps (PDict [("message", PStr ("Updated issue " ++ py_str identifier));
                                 ("issue", issue)])))
        (fun e => ret (Text ("Error: Failed to update issue - " ++ exn_str e)))
  end.

(** [estimate] and [include_archived] are parameters of the tool. *)
Definition linear_search_issues (query team_id status assignee_id : option string)
  (labels : option (list string)) (priority estimate : option Z)
  (include_archived : option bool) (limit : Z) : M tool_text :=
  match linear_client with
  | None => ret (Text not_initialized)
  | Some client =>
      try_except
        (issues <- search_issues client query team_id status assignee_id labels
                     priority limit ;;
         xs <- piter issues ;;
         lines <- map_m (issue_line "None") xs ;;
         n <- plen issues ;;
         n' <- plen issues ;;
         ret (Dumps (PDict [("message", PStr ("Found " ++ z_to_string n
                                              ++ " matching issues"));
                            ("issues", issues);
                            ("text", PStr ("Found " ++ z_to_string n' ++ " issues:" ++ nl
                                           ++ join nl lines))])))
        (fun e => ret (Text ("Error: Failed to search issues - " ++ exn_str e)))
  end.

Definition linear_get_user_issues (user_id : option string) (include_archived : bool)
  (limit : Z) : M tool_text :=
  match linear_client with
  | None => ret (Text not_initialized)
  | Some client =>
      try_except
        (issues <- get_user_issues client user_id include_archived limit ;;
         xs <- piter issues ;;
         lines <- map_m (issue_line "Unknown") xs ;;
         n <- plen issues ;;
         n' <- plen issues ;;
         ret (Dumps (PDict [("message", PStr ("Found " ++ z_to_string n
                                              ++ " assigned issues"));
                            ("issues", issues);
                            ("text", PStr ("Found " ++ z_to_string n' ++ " issues:" ++ nl
                                           ++ join nl lines))])))
        (fun e => ret (Text ("Error: Failed to get user issues - " ++ exn_str e)))
  end.

Definition linear_add_comment (issue_id body : string)
  (create_as_user display_icon_url : option string) : M tool_text :=
  match linear_client with
  | None => ret (Text not_initialized)
  | Some client =>
      try_except
        (comment <- add_comment client issue_id body create_as_user display_icon_url ;;
         if negb (truthy comment) then ret (Text "Error: Failed to add comment")
         else ci <- pget comment "issue" dict0 ;;
              identifier <- pget ci "identifier" PNone ;;
              ret (Dumps (PDict [("message", PStr ("Added comment to issue "
                                                   ++ py_str identifier));
                                 ("comment", comment)])))
        (fun e => ret (Text ("Error: Failed to add comment - " ++ exn_str e)))
  end.

Definition resource_error (msg : string) : pyval := PDict [("error", PStr msg)].

Definition resource_data (v : pyval) : pyval :=
  PDict [("mimeType", PStr "application/json"); ("data", v)].

(** The resources; each one is defined before the name of the client
    method it calls is taken over. *)
Definition get_issue (issue_id : string) : M pyval :=
  match linear_client with
  | None => ret (resource_error "Linear client not initialized")
  | Some client =>
      try_except
        (issue <- get_issue client issue_id ;; ret (resource_data issue))
        (fun e => ret (resource_error ("Failed to get issue: " ++ exn_str e)))
  end.

Definition get_team_issues (team_id : string) : M pyval :=
  match linear_client with
  | None => ret (resource_error "Linear client not initialized")
  | Some client =>
      try_except
        (issues <- get_team_issues client team_id ;; ret (resource_data issues))
        (fun e => ret (resource_error ("Failed to get team issues: " ++ exn_str e)))
  end.

(** [get_user_issues(user_id=actual_user_id)]: the defaults
    [include_archived=False] and [limit=50]. *)
Definition get_user_assigned (user_id : string) : M pyval :=
  match linear_client with
  | None => ret (resource_error "Linear client not initialized")
  | Some client =>
      try_except
        (let actual_user_id := if String.eqb user_id "me" then None else Some user_id in
         issues <- get_user_issues client actual_user_id false 50 ;;
         ret (resource_data issues))
        (fun e => ret (resource_error ("Failed to get user issues: " ++ exn_str e)))
  end.

Definition get_organization : M pyval :=
  match linear_client with
  | None => ret (resource_error "Linear client not initialized")
  | Some client =>
      try_except
        (org <- get_organization client ;; ret (resource_data org))
        (fun e => ret (resource_error ("Failed to get organization: " ++ exn_str e)))
  end.

Definition get_viewer : M pyval :=
  match linear_client with
  | None => ret (resource_error "Linear client not initialized")
  | Some client =>
      try_except
        (viewer <- get_viewer client ;; ret (resource_data viewer))
        (fun e => ret (resource_error ("Failed to get viewer: " ++ exn_str e)))
  end.

End Server.

End Main.

(** ** A concrete remote service, for the examples below

    Team [TEAM-1] has the states Todo ([s1]) and In Progress ([s2]); the
    team of key [OPS] has id [team-uuid-1]; every issue belongs to
    [TEAM-1]; every mutation is reported as failed; the search answers
    with a remote error and no data; issues are reported absent; team
    [TEAM-1]'s listing holds one issue. *)
Definition demo_team_issue : pyval :=
  PDict [("id", PStr "i1"); ("identifier", PStr "ENG-1"); ("title", PStr "t");
         ("description", PNone); ("priority", PInt 0);
         ("state", PDict [("name", PStr "Todo")]);
         ("assignee", PDict [("name", PStr "Ann")]); ("url", PStr "u")].

Definition demo_server (h : trace) (rq : request) : option pyval :=
  match rq_doc rq with
  | StatesQ =>
      Some (PDict [("data", PDict [("team", PDict [("states", PDict [("nodes",
              PList [PDict [("id", PStr "s1"); ("name", PStr "Todo")];
                     PDict [("id", PStr "s2"); ("name", PStr "In Progress")]])])])])])
  | IssueTeamQ =>
      Some (PDict [("data", PDict [("issue", PDict [("team",
              PDict [("id", PStr "TEAM-1")])])])])
  | TeamByKeyQ =>
      Some (PDict [("data", PDict [("team", PDict [("id", PStr "team-uuid-1")])])])
  | CreateIssueM =>
      Some (PDict [("data", PDict [("issueCreate", PDict [("success", PBool false)])])])
  | UpdateIssueM =>
      Some (PDict [("data", PDict [("issueUpdate", PDict [("success", PBool false)])])])
  | CreateCommentM =>
      Some (PDict [("data", PDict [("commentCreate", PDict [("success", PBool false)])])])
  | SearchIssuesQ =>
      Some (PDict [("data", PNone);
                   ("errors", PList [PDict [("message", PStr "Boom")]])])
  | GetIssueQ => Some (PDict [("data", PDict [("issue", PNone)])])
  | GetTeamIssuesQ =>
      Some (PDict [("data", PDict [("team", PDict [("issues",
              PDict [("nodes", PList [demo_team_issue])])])])])
  | _ => Some (PDict [("data", dict0)])
  end.

(** ** Response shapes and spec-side functions used by the statements *)

(** A workflow state node [{id, name}] as the States query returns it. *)
Definition state_node (st : string * string) : pyval :=
  PDict [("id", PStr (fst st)); ("name", PStr (snd st))].

Definition states_response (sts : list (string * string)) : pyval :=
  PDict [("data", PDict [("team", PDict [("states",
          PDict [("nodes", PList (map state_node sts))])])])].

(** The answer to [update_issue]'s team lookup for an issue of team [tid]. *)
Definition issue_team_response (tid : string) : pyval :=
  PDict [("data", PDict [("issue", PDict [("team", PDict [("id", PStr tid)])])])].

(** Spec side of the status resolution: the id of the first state, in
    the returned order, whose name equals [status] up to case. *)
Definition first_state_id (sts : list (string * string)) (status : string)
  : option string :=
  match find (fun st => String.eqb (lower (snd st)) (lower status)) sts with
  | Some st => Some (fst st)
  | None => None
  end.

(** The entry [k: v] when the value is present. *)
Definition field_if (k : string) (v : option pyval) : list (string * pyval) :=
  match v with Some x => [(k, x)] | None => [] end.

(** A mutation response whose [data.<field>] object reports no success:
    its [success] key is absent, null or false. *)
Definition reports_failure (field : string) (r : pyval) : Prop :=
  exists kv d m,
    r = PDict kv /\ lookup kv "data" = Some (PDict d) /\
    lookup d field = Some (PDict m) /\
    (lookup m "success" = None \/ lookup m "success" = Some PNone \/
     lookup m "success" = Some (PBool false)).

(** A response with no [data] payload: [data] absent or falsy (null,
    empty), or a response that is not an object at all. *)
Definition no_data (r : pyval) : Prop :=
  match r with
  | PDict kv => match lookup kv "data" with None => True | Some v => truthy v = false end
  | _ => True
  end.

(** The text the code's [result.get("errors", [{}])[0].get("message",
    "Unknown error")] gives is [msg]: the first error's message, or
    "Unknown error" when the response has no [errors] or the first error
    no [message]. *)
Definition first_error_message (r : pyval) (msg : string) : Prop :=
  exists kv,
    r = PDict kv /\
    ((lookup kv "errors" = None /\ msg = "Unknown error") \/
     (exists e rest,
        lookup kv "errors" = Some (PList (PDict e :: rest)) /\
        (lookup e "message" = Some (PStr msg) \/
         (lookup e "message" = None /\ msg = "Unknown error")))).

(** The answer to the team-by-key query for a team of id [tid]. *)
Definition team_by_key_response (tid : string) : pyval :=
  PDict [("data", PDict [("team", PDict [("id", PStr tid)])])].

(** A response whose data payload (an object, or absent) has no entity
    under [field]: the key is absent or its value is falsy (null, an
    empty object, ...). *)
Definition entity_absent (r : pyval) (field : string) : Prop :=
  exists kv,
    r = PDict kv /\
    (lookup kv "data" = None \/
     exists d, lookup kv "data" = Some (PDict d) /\
       match lookup d field with None => True | Some v => truthy v = false end).

(** A response whose [data] is [v], present but not an object: [null]
    is what a GraphQL service sends when it cannot resolve a non-null
    field such as [issue(id:)] or [team(id:)]. *)
Definition data_not_object (r v : pyval) : Prop :=
  exists kv, r = PDict kv /\ lookup kv "data" = Some v /\ forall d, v <> PDict d.

(** [v.get(...)] on a value [v] that is not a dict. *)
Definition no_get (v : pyval) : exn :=
  AttributeError ("'" ++ type_name v ++ "' object has no attribute 'get'").

(** The answer of a GraphQL service to a query for an entity it cannot
    find. *)
Definition not_found_response : pyval :=
  PDict [("data", PNone);
         ("errors", PList [PDict [("message", PStr "Entity not found")]])].

(** Issue nodes of a response.  [keys] are the keys the projection reads
    with [issue[...]] before the nested objects [subs], which it reads
    with [issue.get(k, {}).get("name")]. *)
Definition has_keys (kv : list (string * pyval)) (keys : list string) : Prop :=
  Forall (fun k => lookup kv k <> None) keys.

Definition dict_or_absent (kv : list (string * pyval)) (k : string) : Prop :=
  match lookup kv k with None | Some (PDict _) => True | _ => False end.

Definition dict_absent_or_null (kv : list (string * pyval)) (k : string) : Prop :=
  match lookup kv k with None | Some (PDict _) | Some PNone => True | _ => False end.

(** A node holding only fields that its query selects. *)
Definition selected_only (fields : list string) (v : pyval) : Prop :=
  exists kv, v = PDict kv /\ Forall (fun k => In k fields) (map fst kv).

(** The fields the GetTeamIssues query selects for an issue: no [team]. *)
Definition team_issue_fields : list string :=
  ["id"; "identifier"; "title"; "description"; "priority"; "state"; "assignee"; "url"].

(** A node whose nested objects are objects or absent. *)
Definition well_formed_node (keys subs : list string) (v : pyval) : Prop :=
  exists kv, v = PDict kv /\ has_keys kv keys /\ Forall (dict_or_absent kv) subs.

(** A node where at least one nested object is present but null. *)
Definition null_sub_node (keys subs : list string) (v : pyval) : Prop :=
  exists kv, v = PDict kv /\ has_keys kv keys /\ Forall (dict_absent_or_null kv) subs /\
    Exists (fun k => lookup kv k = Some PNone) subs.

(** [None.get(...)] *)
Definition attr_none : exn := AttributeError "'NoneType' object has no attribute 'get'".

(** The value at a path of keys of nested objects of a response. *)
Fixpoint dig (v : pyval) (path : list string) : option pyval :=
  match path with
  | [] => Some v
  | k :: p =>
      match v with
      | PDict kv => match lookup kv k with Some w => dig w p | None => None end
      | _ => None
      end
  end.

(** ** Requests posted: the [costs] discipline *)

(** [m] appends at most [n] requests to the trace. *)
Definition costs {A} (n : nat) (m : M A) : Prop :=
  forall tr, exists new, fst (m tr) = (tr ++ new)%list /\ length new <= n.

Lemma costs_ret {A} (a : A) : costs 0 (ret a).
Proof. intro tr; exists []; rewrite app_nil_r; auto. Qed.

Lemma costs_throw {A} (e : exn) : costs 0 (@throw A e).
Proof. intro tr; exists []; rewrite app_nil_r; auto. Qed.

Lemma costs_weaken {A} n k (m : M A) : n <= k -> costs n m -> costs k m.
Proof.
  intros Hle H tr; destruct (H tr) as [new [E L]]; exists new; split; [auto | lia].
Qed.

Lemma costs_bind {A B} n k (m : M A) (f : A -> M B) :
  costs n m -> (forall a, costs k (f a)) -> costs (n + k) (bind m f).
Proof.
  intros Hm Hf tr; unfold bind.
  destruct (Hm tr) as [n1 [E1 L1]].
  destruct (m tr) as [tr1 [a | e]]; simpl in E1; subst tr1.
  - destruct (Hf a (tr ++ n1)%list) as [n2 [E2 L2]].
    exists (n1 ++ n2)%list; rewrite E2, app_assoc, length_app; split; [auto | lia].
  - exists n1; split; [auto | lia].
Qed.

Lemma costs_bind_pure {A B} k (m : M A) (f : A -> M B) :
  costs 0 m -> (forall a, costs k (f a)) -> costs k (bind m f).
Proof. intros; apply (costs_bind 0 k); auto. Qed.

Lemma costs_try {A} n k (m : M A) (h : exn -> M A) :
  costs n m -> (forall e, costs k (h e)) -> costs (n + k) (try_except m h).
Proof.
  intros Hm Hh tr; unfold try_except.
  destruct (Hm tr) as [n1 [E1 L1]].
  destruct (m tr) as [tr1 [a | e]]; simpl in E1; subst tr1.
  - exists n1; split; [auto | lia].
  - destruct (Hh e (tr ++ n1)%list) as [n2 [E2 L2]].
    exists (n1 ++ n2)%list; rewrite E2, app_assoc, length_app; split; [auto | lia].
Qed.

Lemma costs_exec server d v : costs 1 (execute_query server d v).
Proof.
  intro tr; unfold execute_query.
  destruct (server _ _); eexists; split; try reflexivity; simpl; lia.
Qed.

Lemma costs_pget d k dflt : costs 0 (pget d k dflt).
Proof. destruct d; apply costs_ret || apply costs_throw. Qed.

Lemma costs_pitem d k : costs 0 (pitem d k).
Proof.
  destruct d; try apply costs_throw.
  unfold pitem; destruct (lookup _ _); [apply costs_ret | apply costs_throw].
Qed.

Lemma costs_pindex0 x : costs 0 (pindex0 x).
Proof.
  destruct x as [| | | s | l |]; try apply costs_throw.
  - destruct s; [apply costs_throw | apply costs_ret].
  - destruct l; [apply costs_throw | apply costs_ret].
Qed.

Lemma costs_plower v : costs 0 (plower v).
Proof. destruct v; apply costs_ret || apply costs_throw. Qed.

Lemma costs_piter v : costs 0 (piter v).
Proof. destruct v; apply costs_ret || apply costs_throw. Qed.

Lemma costs_map_m {A B} (f : A -> M B) xs :
  (forall x, costs 0 (f x)) -> costs 0 (map_m f xs).
Proof.
  intro Hf; induction xs as [| x xs IH]; simpl.
  - apply costs_ret.
  - apply costs_bind_pure; [apply Hf | intro].
    apply costs_bind_pure; [apply IH | intro; apply costs_ret].
Qed.

Create HintDb costs_db.
#[export] Hint Resolve costs_ret costs_throw costs_pget costs_pitem costs_pindex0
  costs_plower costs_piter : costs_db.

(** Pure code: every bind is on a pure step, every branch is split. *)
Ltac pure_costs :=
  repeat first
    [ apply costs_bind_pure; [solve [pure_costs] | intro]
    | apply costs_map_m; intro
    | match goal with
      | |- costs _ (if ?b then _ else _) => destruct b
      | |- costs _ (match ?x with _ => _ end) => destruct x
      end
    | solve [auto with costs_db]
    | match goal with
      | |- costs (S _) _ => apply (costs_weaken 0); [lia | solve [pure_costs]]
      end ].

Lemma costs_scan_states xs s : costs 0 (scan_states xs s).
Proof. induction xs as [| x xs IH]; simpl; pure_costs. Qed.

Lemma costs_state_name_if i : costs 0 (state_name_if i).
Proof. unfold state_name_if; pure_costs. Qed.

#[export] Hint Resolve costs_scan_states costs_state_name_if : costs_db.

Lemma costs_project_mutated a b i : costs 0 (project_mutated a b i).
Proof. unfold project_mutated; pure_costs. Qed.

Lemma costs_project_issue i : costs 0 (project_issue i).
Proof. unfold project_issue; pure_costs. Qed.

Lemma costs_project_list_issue i : costs 0 (project_list_issue i).
Proof. unfold project_list_issue; pure_costs. Qed.

Lemma costs_project_search_issue i : costs 0 (project_search_issue i).
Proof. unfold project_search_issue; pure_costs. Qed.

Lemma costs_project_user_issue i : costs 0 (project_user_issue i).
Proof. unfold project_user_issue; pure_costs. Qed.

Lemma costs_project_team_issue i : costs 0 (project_team_issue i).
Proof. unfold project_team_issue; pure_costs. Qed.

Lemma costs_project_team i : costs 0 (project_team i).
Proof. unfold project_team; pure_costs. Qed.

Lemma costs_project_org_user i : costs 0 (project_org_user i).
Proof. unfold project_org_user; pure_costs. Qed.

#[export] Hint Resolve costs_project_mutated costs_project_issue
  costs_project_list_issue costs_project_search_issue costs_project_user_issue
  costs_project_team_issue costs_project_team costs_project_org_user : costs_db.

Lemma costs_bind_le {A B} n k j (m : M A) (f : A -> M B) :
  costs n m -> (forall a, costs k (f a)) -> n + k <= j -> costs j (bind m f).
Proof. intros; apply (costs_weaken (n + k)); [lia | apply costs_bind; auto]. Qed.

Lemma costs_bind_exec {B} server d v k (f : pyval -> M B) :
  (forall a, costs k (f a)) -> costs (S k) (bind (execute_query server d v) f).
Proof. intro; apply (costs_bind_le 1 k); [apply costs_exec | auto | lia]. Qed.

Section Costs.
Variable server : trace -> request -> option pyval.

Lemma costs_fetch_states t : costs 1 (fetch_states server t).
Proof. unfold fetch_states; apply costs_bind_exec; intro; pure_costs. Qed.

Lemma costs_create_state_id t s : costs 1 (create_state_id server t s).
Proof.
  unfold create_state_id; destruct s as [s |]; [| pure_costs].
  destruct (truthy (PStr s)); [| pure_costs].
  apply (costs_bind_le 1 0); [apply costs_fetch_states | intro; pure_costs | lia].
Qed.

Lemma costs_update_state_id i s : costs 2 (update_state_id server i s).
Proof.
  unfold update_state_id; destruct s as [s |]; [| pure_costs].
  destruct (truthy (PStr s)); [| pure_costs].
  apply costs_bind_exec; intro; pure_costs.
  apply (costs_bind_le 1 0); [apply costs_fetch_states | intro; pure_costs | lia].
Qed.

(** Without a non-empty status, no lookup is posted. *)
Lemma update_state_id_no_status i s :
  match s with Some x => x = "" | None => True end ->
  forall tr, update_state_id server i s tr = (tr, Ok PNone).
Proof. destruct s as [x |]; intros H tr; [subst x |]; reflexivity. Qed.

Lemma costs_search_team t : costs 1 (search_team server t).
Proof.
  unfold search_team; destruct t as [t |]; [| pure_costs].
  destruct (truthy (PStr t) && negb (has_dash t)); [| pure_costs].
  apply costs_bind_exec; intro; pure_costs.
Qed.

Lemma costs_search_body v : costs 1 (search_body server v).
Proof. unfold search_body; apply costs_bind_exec; intro; pure_costs. Qed.

Lemma costs_create_issue a b c d e : costs 2 (create_issue server a b c d e).
Proof.
  unfold create_issue.
  apply (costs_bind_le 1 1); [apply costs_create_state_id | intro | lia].
  apply costs_bind_exec; intro; pure_costs.
Qed.

Lemma costs_update_issue a b c d e : costs 3 (update_issue server a b c d e).
Proof.
  unfold update_issue.
  apply (costs_bind_le 2 1); [apply costs_update_state_id | intro | lia].
  apply costs_bind_exec; intro; pure_costs.
Qed.

Lemma costs_search_issues a b c d e f g : costs 2 (search_issues server a b c d e f g).
Proof.
  unfold search_issues.
  apply (costs_bind_le 1 1); [apply costs_search_team | intro | lia].
  apply (costs_weaken (1 + 0)); [lia | apply costs_try].
  - apply costs_search_body.
  - intro; apply costs_throw.
Qed.

Lemma costs_get_user_issues u a n : costs 1 (get_user_issues server u a n).
Proof.
  unfold get_user_issues.
  apply (costs_bind_le 1 0); [| intro; pure_costs | lia].
  destruct (truthy _); apply costs_bind_exec; intro; pure_costs.
Qed.

Lemma costs_add_comment a b c d : costs 1 (add_comment server a b c d).
Proof. unfold add_comment; apply costs_bind_exec; intro; pure_costs. Qed.

Lemma costs_get_issue i : costs 1 (get_issue server i).
Proof. unfold get_issue; apply costs_bind_exec; intro; pure_costs. Qed.

Lemma costs_get_team_issues t : costs 1 (get_team_issues server t).
Proof. unfold get_team_issues; apply costs_bind_exec; intro; pure_costs. Qed.

Lemma costs_get_viewer : costs 1 (get_viewer server).
Proof. unfold get_viewer; apply costs_bind_exec; intro; pure_costs. Qed.

Lemma costs_get_organization : costs 1 (get_organization server).
Proof. unfold get_organization; apply costs_bind_exec; intro; pure_costs. Qed.

Lemma costs_update_issue_no_status a b c d s :
  match s with Some x => x = "" | None => True end ->
  costs 1 (update_issue server a b c d s).
Proof.
  intros Hs tr; unfold update_issue, bind at 1.
  rewrite (update_state_id_no_status a s Hs tr).
  apply (costs_bind_exec server UpdateIssueM _ 0); intro; pure_costs.
Qed.

End Costs.

Lemma costs_trace_length {A} n (m : M A) : costs n m -> length (fst (m [])) <= n.
Proof. intro H; destruct (H []) as [new [E L]]; rewrite E; exact L. Qed.

(** ** C8: network round trips per call *)

(** C8 (as stated): every facade call posts at most two requests. *)
Lemma C8_update_with_status_three_round_trips :
  ~ (forall server c, length (fst (run_call server c [])) <= 2).
Proof.
  intro H.
  specialize (H demo_server (UpdateIssue "I-1" None None None (Some "In Progress"))).
  vm_compute in H; lia.
Qed.

(** C8 (amended): every facade call posts at most two requests, except
    [update_issue] with a non-empty status, which posts at most three
    (the issue's team, the team's states, the mutation). *)
Theorem C8_round_trips_bounded :
  forall server c,
    length (fst (run_call server c [])) <= 2 \/
    (exists i t d p s, c = UpdateIssue i t d p (Some s) /\ s <> "" /\
       length (fst (run_call server c [])) <= 3).
Proof.
  intros server c.
  destruct c as [ti te d p s | i ti d p s | q t s a l p n | u a n | i b cu du
                 | i | t | |]; simpl run_call.
  - left; apply costs_trace_length, costs_create_issue.
  - destruct s as [s |].
    + destruct (String.eqb s "") eqn:E.
      * apply String.eqb_eq in E; subst s; left.
        apply costs_trace_length, (costs_weaken 1); [lia |].
        apply costs_update_issue_no_status; reflexivity.
      * right; exists i, ti, d, p, s; split; [reflexivity | split].
        -- intro; subst s; discriminate.
        -- apply costs_trace_length, costs_update_issue.
    + left; apply costs_trace_length, (costs_weaken 1); [lia |].
      apply costs_update_issue_no_status; exact I.
  - left; apply costs_trace_length, costs_search_issues.
  - left; apply costs_trace_length, (costs_weaken 1); [lia | apply costs_get_user_issues].
  - left; apply costs_trace_length, (costs_weaken 1); [lia | apply costs_add_comment].
  - left; apply costs_trace_length, (costs_weaken 1); [lia | apply costs_get_issue].
  - left; apply costs_trace_length, (costs_weaken 1); [lia | apply costs_get_team_issues].
  - left; apply costs_trace_length, (costs_weaken 1); [lia | apply costs_get_viewer].
  - left; apply costs_trace_length, (costs_weaken 1); [lia | apply costs_get_organization].
Qed.

(** ** Stepping through a run *)

Lemma bind_ok {A B} (m : M A) (f : A -> M B) tr tr' a :
  m tr = (tr', Ok a) -> bind m f tr = f a tr'.
Proof. intro H; unfold bind; rewrite H; reflexivity. Qed.

Lemma bind_raise {A B} (m : M A) (f : A -> M B) tr tr' e :
  m tr = (tr', Raise e) -> bind m f tr = (tr', Raise e).
Proof. intro H; unfold bind; rewrite H; reflexivity. Qed.

Lemma pure_trace {A} (m : M A) tr : costs 0 m -> fst (m tr) = tr.
Proof.
  intro H; destruct (H tr) as [[| x new] [E L]]; simpl in L; [| lia].
  rewrite E, app_nil_r; reflexivity.
Qed.

(** A request followed by pure code adds exactly that request. *)
Lemma bind_exec_trace {B} server d v (f : pyval -> M B) tr :
  (forall a, costs 0 (f a)) ->
  fst (bind (execute_query server d v) f tr)
  = (tr ++ [mk_request d (if truthy v then v else dict0)])%list.
Proof.
  intro Hf; unfold bind, execute_query.
  destruct (server _ _); simpl; [apply pure_trace, Hf | reflexivity].
Qed.

Lemma scan_states_nodes sts s tr :
  scan_states (map state_node sts) s tr = (tr, Ok (opt_str (first_state_id sts s))).
Proof.
  induction sts as [| [i n] sts IH]; [reflexivity |].
  unfold first_state_id in *; simpl; unfold bind, ret; simpl.
  destruct (String.eqb (lower n) (lower s)); [reflexivity | exact IH].
Qed.

Lemma truthy_str s : s <> "" -> truthy (PStr s) = true.
Proof.
  intro H; simpl; destruct (String.eqb s "") eqn:E; [| reflexivity].
  apply String.eqb_eq in E; contradiction.
Qed.

Section Resolution.
Variable server : trace -> request -> option pyval.
Variable sts : list (string * string).
Hypothesis states_answer :
  forall h rq, rq_doc rq = StatesQ -> server h rq = Some (states_response sts).

Lemma fetch_states_run t tr :
  fetch_states server t tr
  = ((tr ++ [mk_request StatesQ (PDict [("teamId", t)])])%list,
     Ok (PList (map state_node sts))).
Proof.
  unfold fetch_states, bind at 1, execute_query; simpl.
  rewrite states_answer by reflexivity; reflexivity.
Qed.

Lemma create_state_id_run team_id status tr :
  status <> "" ->
  create_state_id server team_id (Some status) tr
  = ((tr ++ [mk_request StatesQ (PDict [("teamId", PStr team_id)])])%list,
     Ok (opt_str (first_state_id sts status))).
Proof.
  intro Hs; unfold create_state_id; rewrite (truthy_str _ Hs).
  erewrite bind_ok by apply fetch_states_run; simpl.
  apply scan_states_nodes.
Qed.

Lemma update_state_id_run issue_id status tid tr :
  status <> "" -> tid <> "" ->
  (forall h rq, rq_doc rq = IssueTeamQ -> server h rq = Some (issue_team_response tid)) ->
  update_state_id server issue_id (Some status) tr
  = ((tr ++ [mk_request IssueTeamQ (PDict [("id", PStr issue_id)]);
             mk_request StatesQ (PDict [("teamId", PStr tid)])])%list,
     Ok (opt_str (first_state_id sts status))).
Proof.
  intros Hs Ht Hi; unfold update_state_id; rewrite (truthy_str _ Hs).
  unfold bind at 1, execute_query; simpl.
  rewrite Hi by reflexivity; simpl.
  do 4 (erewrite bind_ok by reflexivity; simpl).
  replace (tid =? "") with false by (symmetry; apply String.eqb_neq; exact Ht); simpl.
  erewrite bind_ok by apply fetch_states_run; simpl.
  rewrite <- app_assoc; apply scan_states_nodes.
Qed.

End Resolution.

(** ** C3: status names resolve to the first matching state *)

(** C3: with a non-empty status, [create_issue] queries the states of the
    given team and [update_issue] those of the issue's team, and the
    mutation carries the id of the first state, in the returned order,
    whose name equals the status up to case ([first_state_id]); when none
    matches, the mutation is still sent: [create_issue]'s [stateId] is
    null, and [update_issue]'s input has no [stateId] key.  For the spec's
    scenario (Todo = s1, In Progress = s2, status "In Progress") the id is
    "s2". *)
Theorem C3_status_resolves_to_first_match :
  (forall server sts title team_id description priority status,
     status <> "" ->
     (forall h rq, rq_doc rq = StatesQ -> server h rq = Some (states_response sts)) ->
     fst (create_issue server title team_id description priority (Some status) [])
     = [mk_request StatesQ (PDict [("teamId", PStr team_id)]);
        mk_request CreateIssueM
          (PDict [("input", create_input title team_id description priority
                              (opt_str (first_state_id sts status)))])]) /\
  (forall server sts issue_id title description priority status tid,
     status <> "" -> tid <> "" ->
     (forall h rq, rq_doc rq = IssueTeamQ -> server h rq = Some (issue_team_response tid)) ->
     (forall h rq, rq_doc rq = StatesQ -> server h rq = Some (states_response sts)) ->
     fst (update_issue server issue_id title description priority (Some status) [])
     = [mk_request IssueTeamQ (PDict [("id", PStr issue_id)]);
        mk_request StatesQ (PDict [("teamId", PStr tid)]);
        mk_request UpdateIssueM
          (update_variables issue_id title description priority
             (opt_str (first_state_id sts status)))]) /\
  first_state_id [("s1", "Todo"); ("s2", "In Progress")] "In Progress" = Some "s2" /\
  (forall title description priority,
     lookup (update_input title description priority (opt_str None)) "stateId" = None).
Proof.
  split; [| split; [| split]].
  - intros server sts title team_id description priority status Hne Hs.
    unfold create_issue.
    erewrite bind_ok by exact (create_state_id_run server sts Hs team_id status [] Hne).
    rewrite bind_exec_trace by (intro; pure_costs); reflexivity.
  - intros server sts issue_id title description priority status tid Hne Ht Hi Hs.
    unfold update_issue.
    erewrite bind_ok
      by exact (update_state_id_run server sts Hs issue_id status tid [] Hne Ht Hi).
    rewrite bind_exec_trace by (intro; pure_costs); reflexivity.
  - reflexivity.
  - intros [t |] [d |] [p |]; reflexivity.
Qed.

Lemma C3_witness :
  fst (create_issue demo_server "Fix login bug" "TEAM-1" None None (Some "In Progress") [])
  = [mk_request StatesQ (PDict [("teamId", PStr "TEAM-1")]);
     mk_request CreateIssueM
       (PDict [("input", create_input "Fix login bug" "TEAM-1" None None (PStr "s2"))])] /\
  fst (update_issue demo_server "I-1" None None None (Some "todo") [])
  = [mk_request IssueTeamQ (PDict [("id", PStr "I-1")]);
     mk_request StatesQ (PDict [("teamId", PStr "TEAM-1")]);
     mk_request UpdateIssueM (update_variables "I-1" None None None (PStr "s1"))].
Proof.
  split.
  - apply (proj1 C3_status_resolves_to_first_match
             demo_server [("s1", "Todo"); ("s2", "In Progress")]).
    + discriminate.
    + intros h rq H; unfold demo_server; rewrite H; reflexivity.
  - apply (proj1 (proj2 C3_status_resolves_to_first_match)
             demo_server [("s1", "Todo"); ("s2", "In Progress")]).
    + discriminate.
    + discriminate.
    + intros h rq H; unfold demo_server; rewrite H; reflexivity.
    + intros h rq H; unfold demo_server; rewrite H; reflexivity.
Defined.

(** ** Which requests a computation posts *)

Definition emits {A} (P : request -> Prop) (m : M A) : Prop :=
  forall tr, exists new, fst (m tr) = (tr ++ new)%list /\ Forall P new.

Lemma emits_pure {A} P (m : M A) : costs 0 m -> emits P m.
Proof.
  intros H tr; exists []; split; [rewrite app_nil_r; apply pure_trace, H | constructor].
Qed.

Lemma emits_bind {A B} P (m : M A) (f : A -> M B) :
  emits P m -> (forall a, emits P (f a)) -> emits P (bind m f).
Proof.
  intros Hm Hf tr; unfold bind.
  destruct (Hm tr) as [n1 [E1 F1]].
  destruct (m tr) as [tr1 [a | e]]; simpl in E1; subst tr1.
  - destruct (Hf a (tr ++ n1)%list) as [n2 [E2 F2]].
    exists (n1 ++ n2)%list; rewrite E2, app_assoc; split; [auto | apply Forall_app; auto].
  - exists n1; auto.
Qed.

Lemma emits_exec P server d v :
  P (mk_request d (if truthy v then v else dict0)) -> emits P (execute_query server d v).
Proof.
  intros H tr; unfold execute_query.
  destruct (server _ _); eexists; split; try reflexivity; repeat constructor; auto.
Qed.

Ltac emits_tac :=
  repeat first
    [ apply emits_bind;
        [apply emits_exec; simpl;
         first [reflexivity | left; reflexivity | right; reflexivity | discriminate]
        | intro]
    | apply emits_bind; [apply emits_pure; solve [pure_costs] | intro]
    | apply emits_pure; solve [pure_costs]
    | match goal with
      | |- emits _ (if ?b then _ else _) => destruct b
      | |- emits _ (match ?x with _ => _ end) => destruct x
      end ].

Lemma fetch_states_emits server t :
  emits (fun rq => rq_doc rq = StatesQ) (fetch_states server t).
Proof. unfold fetch_states; emits_tac. Qed.

Lemma emits_weaken {A} (P Q : request -> Prop) (m : M A) :
  (forall rq, P rq -> Q rq) -> emits P m -> emits Q m.
Proof.
  intros H Hm tr; destruct (Hm tr) as [new [E F]]; exists new; split; [exact E |].
  eapply Forall_impl; [exact H | exact F].
Qed.

Lemma update_state_id_emits server i s :
  emits (fun rq => rq_doc rq = IssueTeamQ \/ rq_doc rq = StatesQ) (update_state_id server i s).
Proof.
  unfold update_state_id; emits_tac.
  apply emits_bind; [| intro; emits_tac].
  eapply emits_weaken; [| apply fetch_states_emits]; intros; right; assumption.
Qed.

Lemma create_state_id_emits server t s :
  emits (fun rq => rq_doc rq = StatesQ) (create_state_id server t s).
Proof.
  unfold create_state_id; emits_tac.
  apply emits_bind; [apply fetch_states_emits | intro; emits_tac].
Qed.

Lemma update_input_shape title description priority sid :
  update_input title description priority sid
  = (field_if "title" (option_map PStr title)
     ++ field_if "description" (option_map PStr description)
     ++ field_if "priority" (option_map PInt priority)
     ++ match sid with PNone => [] | _ => [("stateId", sid)] end)%list.
Proof. destruct title, description, priority, sid; reflexivity. Qed.

(** ** C2: the update input holds exactly the provided fields *)

(** C2: every [issueUpdate] request [update_issue] posts has the input
    object built by presence: a [title], [description] or [priority] key
    exactly when that argument is not [None] (an empty title included),
    with the argument's value, followed only by a non-null [stateId] that
    only a non-empty status can produce; with only [priority = 2] for
    issue "I-1", the single request posted has input [{priority: 2}]. *)
Theorem C2_update_input_by_presence :
  (forall server issue_id title description priority status rq,
     In rq (fst (update_issue server issue_id title description priority status [])) ->
     rq_doc rq = UpdateIssueM ->
     exists state_part,
       rq_vars rq
       = PDict [("id", PStr issue_id);
                ("input", PDict (field_if "title" (option_map PStr title)
                                 ++ field_if "description" (option_map PStr description)
                                 ++ field_if "priority" (option_map PInt priority)
                                 ++ state_part)%list)] /\
       (state_part = [] \/ exists v, v <> PNone /\ state_part = [("stateId", v)]) /\
       ((status = None \/ status = Some "") -> state_part = [])) /\
  (forall server,
     fst (update_issue server "I-1" None None (Some 2%Z) None [])
     = [mk_request UpdateIssueM
          (PDict [("id", PStr "I-1"); ("input", PDict [("priority", PInt 2)])])]).
Proof.
  split.
  - intros server issue_id title description priority status rq Hin Hdoc.
    unfold update_issue in Hin.
    destruct (update_state_id_emits server issue_id status []) as [new [E F]].
    destruct (update_state_id server issue_id status []) as [tr1 [sid | e]] eqn:R;
      simpl in E; subst tr1.
    + erewrite bind_ok in Hin by exact R.
      rewrite bind_exec_trace in Hin by (intro; pure_costs).
      apply in_app_or in Hin; destruct Hin as [Hin | [Hin | []]].
      * rewrite Forall_forall in F; destruct (F rq Hin) as [D | D];
          rewrite Hdoc in D; discriminate.
      * subst rq; simpl.
        exists (match sid with PNone => [] | _ => [("stateId", sid)] end).
        split; [unfold update_variables; rewrite update_input_shape; reflexivity |].
        split.
        -- destruct sid; try (left; reflexivity);
             right; (eexists; split; [| reflexivity]; discriminate).
        -- intros Hs.
           assert (Hs' : match status with Some x => x = "" | None => True end)
             by (destruct Hs as [-> | ->]; reflexivity).
           rewrite (update_state_id_no_status server issue_id status Hs' []) in R.
           inversion R; reflexivity.
    + erewrite bind_raise in Hin by exact R; simpl in Hin.
      rewrite Forall_forall in F; destruct (F rq Hin) as [D | D];
        rewrite Hdoc in D; discriminate.
  - intro server; unfold update_issue.
    erewrite bind_ok by exact (update_state_id_no_status server "I-1" None I []).
    rewrite bind_exec_trace by (intro; pure_costs); reflexivity.
Qed.

Lemma C2_witness :
  exists state_part,
    rq_vars (mk_request UpdateIssueM (update_variables "I-1" (Some "") None None PNone))
    = PDict [("id", PStr "I-1");
             ("input", PDict (field_if "title" (option_map PStr (Some ""))
                              ++ field_if "description" (option_map PStr None)
                              ++ field_if "priority" (option_map PInt None)
                              ++ state_part)%list)] /\
    (state_part = [] \/ exists v, v <> PNone /\ state_part = [("stateId", v)]) /\
    ((@None string = None \/ @None string = Some "") -> state_part = []).
Proof.
  apply (proj1 C2_update_input_by_presence demo_server "I-1" (Some "") None None None).
  - vm_compute; left; reflexivity.
  - reflexivity.
Defined.

(** ** C5: a failed mutation is a [None] result *)

Lemma failure_tail field r (rest : pyval -> M pyval) tr :
  reports_failure field r ->
  (d <- pget r "data" dict0 ;;
   ir <- pget d field dict0 ;;
   success <- pget ir "success" PNone ;;
   if negb (truthy success) then ret PNone else rest ir) tr = (tr, Ok PNone).
Proof.
  intros (kv & d & m & -> & Hd & Hf & Hs).
  unfold bind, pget, ret; rewrite Hd, Hf.
  destruct Hs as [Hs | [Hs | Hs]]; rewrite Hs; reflexivity.
Qed.

Lemma not_in_docs P d (new : trace) :
  Forall P new -> (forall rq, P rq -> rq_doc rq <> d) -> ~ In d (map rq_doc new).
Proof.
  intros F H Hin; apply in_map_iff in Hin; destruct Hin as [rq [Hd Hin]].
  rewrite Forall_forall in F; exact (H rq (F rq Hin) Hd).
Qed.

(** C5: when the remote answers [issueCreate], [issueUpdate] or
    [commentCreate] with [success] false or absent, the method returns
    [None] and raises nothing: once that mutation has been posted, the
    only exception left is the transport's own non-success status. *)
Theorem C5_mutation_failure_returns_none :
  (forall server title team_id description priority status tr o,
     (forall h rq r, rq_doc rq = CreateIssueM -> server h rq = Some r ->
                     reports_failure "issueCreate" r) ->
     create_issue server title team_id description priority status [] = (tr, o) ->
     In CreateIssueM (map rq_doc tr) ->
     o = Ok PNone \/ exists msg, o = Raise (HTTPStatusError msg)) /\
  (forall server issue_id title description priority status tr o,
     (forall h rq r, rq_doc rq = UpdateIssueM -> server h rq = Some r ->
                     reports_failure "issueUpdate" r) ->
     update_issue server issue_id title description priority status [] = (tr, o) ->
     In UpdateIssueM (map rq_doc tr) ->
     o = Ok PNone \/ exists msg, o = Raise (HTTPStatusError msg)) /\
  (forall server issue_id body create_as_user display_icon_url tr o,
     (forall h rq r, rq_doc rq = CreateCommentM -> server h rq = Some r ->
                     reports_failure "commentCreate" r) ->
     add_comment server issue_id body create_as_user display_icon_url [] = (tr, o) ->
     o = Ok PNone \/ exists msg, o = Raise (HTTPStatusError msg)).
Proof.
  split; [| split].
  - intros server title team_id description priority status tr o Hsrv Hrun Hin.
    unfold create_issue in Hrun.
    destruct (create_state_id_emits server team_id status []) as [new [E F]].
    destruct (create_state_id server team_id status []) as [tr1 [sid | e]] eqn:R;
      simpl in E; subst tr1.
    + erewrite bind_ok in Hrun by exact R.
      unfold bind at 1, execute_query in Hrun.
      destruct (server new _) as [r |] eqn:S.
      * rewrite failure_tail in Hrun by (eapply Hsrv; [| exact S]; reflexivity).
        injection Hrun as _ <-; left; reflexivity.
      * injection Hrun as _ <-; right; eexists; reflexivity.
    + erewrite bind_raise in Hrun by exact R; injection Hrun as <- _.
      exfalso; refine (not_in_docs _ _ _ F _ Hin); intros rq ->; discriminate.
  - intros server issue_id title description priority status tr o Hsrv Hrun Hin.
    unfold update_issue in Hrun.
    destruct (update_state_id_emits server issue_id status []) as [new [E F]].
    destruct (update_state_id server issue_id status []) as [tr1 [sid | e]] eqn:R;
      simpl in E; subst tr1.
    + erewrite bind_ok in Hrun by exact R.
      unfold bind at 1, execute_query in Hrun.
      destruct (server new _) as [r |] eqn:S.
      * rewrite failure_tail in Hrun by (eapply Hsrv; [| exact S]; reflexivity).
        injection Hrun as _ <-; left; reflexivity.
      * injection Hrun as _ <-; right; eexists; reflexivity.
    + erewrite bind_raise in Hrun by exact R; injection Hrun as <- _.
      exfalso; refine (not_in_docs _ _ _ F _ Hin); intros rq [-> | ->]; discriminate.
  - intros server issue_id body create_as_user display_icon_url tr o Hsrv Hrun.
    unfold add_comment, bind at 1, execute_query in Hrun.
    destruct (server [] _) as [r |] eqn:S.
    + rewrite failure_tail in Hrun by (eapply Hsrv; [| exact S]; reflexivity).
      injection Hrun as _ <-; left; reflexivity.
    + injection Hrun as _ <-; right; eexists; reflexivity.
Qed.

Lemma C5_witness :
  (snd (create_issue demo_server "Fix login bug" "TEAM-1" None None (Some "In Progress") [])
     = Ok PNone \/
   exists msg, snd (create_issue demo_server "Fix login bug" "TEAM-1" None None
                      (Some "In Progress") []) = Raise (HTTPStatusError msg)) /\
  (snd (update_issue demo_server "I-1" None None None (Some "todo") []) = Ok PNone \/
   exists msg, snd (update_issue demo_server "I-1" None None None (Some "todo") [])
               = Raise (HTTPStatusError msg)) /\
  (snd (add_comment demo_server "I-1" "hi" (Some "Bot") None []) = Ok PNone \/
   exists msg, snd (add_comment demo_server "I-1" "hi" (Some "Bot") None [])
               = Raise (HTTPStatusError msg)).
Proof.
  split; [| split].
  - apply (proj1 C5_mutation_failure_returns_none demo_server "Fix login bug" "TEAM-1"
             None None (Some "In Progress")
             (fst (create_issue demo_server "Fix login bug" "TEAM-1" None None
                     (Some "In Progress") []))).
    + intros h rq r Hd Hs; unfold demo_server in Hs; rewrite Hd in Hs.
      injection Hs as <-; eexists _, _, _.
      split; [reflexivity | split; [reflexivity | split; [reflexivity |]]].
      right; right; reflexivity.
    + vm_compute; reflexivity.
    + vm_compute; auto.
  - apply (proj1 (proj2 C5_mutation_failure_returns_none) demo_server "I-1"
             None None None (Some "todo")
             (fst (update_issue demo_server "I-1" None None None (Some "todo") []))).
    + intros h rq r Hd Hs; unfold demo_server in Hs; rewrite Hd in Hs.
      injection Hs as <-; eexists _, _, _.
      split; [reflexivity | split; [reflexivity | split; [reflexivity |]]].
      right; right; reflexivity.
    + vm_compute; reflexivity.
    + vm_compute; auto.
  - apply (proj2 (proj2 C5_mutation_failure_returns_none) demo_server "I-1" "hi"
             (Some "Bot") None
             (fst (add_comment demo_server "I-1" "hi" (Some "Bot") None []))).
    + intros h rq r Hd Hs; unfold demo_server in Hs; rewrite Hd in Hs.
      injection Hs as <-; eexists _, _, _.
      split; [reflexivity | split; [reflexivity | split; [reflexivity |]]].
      right; right; reflexivity.
    + vm_compute; reflexivity.
Defined.

(** ** C1: the create input object *)

(** C1 (failing input): [create_issue("Fix login bug", "TEAM-1")] with no
    description, priority or status posts an input object that still has
    the keys [description], [priority] and [stateId], bound to null;
    whatever the arguments, the object always has these five keys. *)
Theorem C1_create_input_keeps_omitted_keys :
  (forall server,
     fst (create_issue server "Fix login bug" "TEAM-1" None None None [])
     = [mk_request CreateIssueM
          (PDict [("input", PDict [("title", PStr "Fix login bug");
                                   ("teamId", PStr "TEAM-1");
                                   ("description", PNone); ("priority", PNone);
                                   ("stateId", PNone)])])]) /\
  (forall title team_id description priority state_id,
     map fst (match create_input title team_id description priority state_id with
              | PDict kv => kv | _ => [] end)
     = ["title"; "teamId"; "description"; "priority"; "stateId"]).
Proof.
  split.
  - intro server; unfold create_issue.
    erewrite bind_ok by reflexivity.
    rewrite bind_exec_trace by (intro; pure_costs); reflexivity.
  - reflexivity.
Qed.

(** ** Following a response down its nested objects *)

Lemma bind_assoc {A B C} (m : M A) (f : A -> M B) (g : B -> M C) tr :
  bind (bind m f) g tr = bind m (fun a => bind (f a) g) tr.
Proof. unfold bind; destruct (m tr) as [tr1 [a | e]]; reflexivity. Qed.

Lemma exec_run server d v r tr :
  (forall h rq, rq_doc rq = d -> server h rq = Some r) ->
  execute_query server d v tr
  = ((tr ++ [mk_request d (if truthy v then v else dict0)])%list, Ok r).
Proof. intro H; unfold execute_query; rewrite H by reflexivity; reflexivity. Qed.

Lemma exec_fail server d v tr :
  (forall h rq, rq_doc rq = d -> server h rq = None) ->
  execute_query server d v tr
  = ((tr ++ [mk_request d (if truthy v then v else dict0)])%list,
     Raise (HTTPStatusError "non-success response status")).
Proof. intro H; unfold execute_query; rewrite H by reflexivity; reflexivity. Qed.

Lemma dig_pget v k p x dflt tr :
  dig v (k :: p) = Some x -> exists w, pget v k dflt tr = (tr, Ok w) /\ dig w p = Some x.
Proof.
  destruct v as [| | | | | kv]; try discriminate; simpl.
  destruct (lookup kv k) as [w |]; [| discriminate]; intro H; exists w; auto.
Qed.

Lemma dig_truthy v k p x : dig v (k :: p) = Some x -> truthy v = true.
Proof.
  destruct v as [| | | | | [| kv0 kv]]; try discriminate; reflexivity.
Qed.

(** Follows a path of [.get] calls down a response, in a hypothesis. *)
Ltac dig_in H Hd :=
  let w := fresh "w" in let Hw := fresh "Hw" in let Hd' := fresh "Hd" in
  try rewrite !bind_assoc in H; cbv beta in H;
  match type of H with
  | context [bind (pget ?v ?k ?dflt) _ ?tr] =>
      destruct (dig_pget v k _ _ dflt tr Hd) as (w & Hw & Hd');
      clear Hd; rename Hd' into Hd;
      rewrite (bind_ok _ _ _ _ _ Hw) in H; clear Hw
  end.

(** Follows a path of [.get] calls down a response, in the goal. *)
Ltac dig_goal Hd :=
  let w := fresh "w" in let Hw := fresh "Hw" in let Hd' := fresh "Hd" in
  try rewrite !bind_assoc; cbv beta;
  match goal with
  | |- context [bind (pget ?v ?k ?dflt) _ ?tr] =>
      destruct (dig_pget v k _ _ dflt tr Hd) as (w & Hw & Hd');
      clear Hd; rename Hd' into Hd;
      rewrite (bind_ok _ _ _ _ _ Hw); clear Hw
  end.

(** ** C4: the search error path *)

Lemma search_team_emits server t :
  emits (fun rq => rq_doc rq = TeamByKeyQ) (search_team server t).
Proof. unfold search_team; emits_tac. Qed.

Lemma bind_raises {A B} (m : M A) (k : A -> M B) tr :
  (forall a tr', exists e, snd (k a tr') = Raise e) ->
  exists e, snd (bind m k tr) = Raise e.
Proof.
  intro H; unfold bind; destruct (m tr) as [tr1 [a | e]]; [apply H | eexists; reflexivity].
Qed.

(** Without a data payload, the [try] block of [search_issues] raises
    once its request is answered, whatever [errors] holds. *)
Lemma search_body_no_data server v r tr :
  server tr (mk_request SearchIssuesQ (if truthy v then v else dict0)) = Some r ->
  no_data r ->
  exists e, snd (search_body server v tr) = Raise e.
Proof.
  intros S N.
  unfold search_body, bind at 1, execute_query; rewrite S; cbv beta iota zeta.
  destruct r as [| | | | | kv];
    try (erewrite bind_raise by reflexivity; eexists; reflexivity).
  erewrite bind_ok by reflexivity; cbv beta.
  unfold no_data in N; destruct (lookup kv "data") as [dv |]; [rewrite N |];
    cbn [negb truthy dict0];
    apply bind_raises; intros; apply bind_raises; intros; apply bind_raises; intros;
    eexists; reflexivity.
Qed.

Lemma search_body_message server v r msg tr :
  server tr (mk_request SearchIssuesQ (if truthy v then v else dict0)) = Some r ->
  no_data r -> first_error_message r msg ->
  snd (search_body server v tr) = Raise (Exception msg).
Proof.
  intros S N (kv & -> & He).
  unfold search_body, bind at 1, execute_query; rewrite S; cbv beta iota zeta.
  unfold no_data in N; unfold bind, pget, ret, throw.
  destruct (lookup kv "data") as [dv |]; [rewrite N |]; simpl;
    (destruct He as [[He ->] | (e & rest & He & [Hm | [Hm ->]])];
     rewrite He; simpl; try rewrite Hm; reflexivity).
Qed.

(** A [search_issues] run that reached its search request. *)
Lemma search_issues_posted server q t s a l p n tr o :
  search_issues server q t s a l p n [] = (tr, o) ->
  In SearchIssuesQ (map rq_doc tr) ->
  exists new team,
    search_team server t [] = (new, Ok team) /\
    try_except (search_body server (search_variables n (search_filter q team s a l p)))
      (fun e => throw (Exception ("Search failed: " ++ exn_str e))) new = (tr, o).
Proof.
  intros Hrun Hin; unfold search_issues in Hrun.
  destruct (search_team_emits server t []) as [new [E F]].
  destruct (search_team server t []) as [tr1 [team | e]] eqn:R; simpl in E; subst tr1.
  - erewrite bind_ok in Hrun by exact R; eauto.
  - erewrite bind_raise in Hrun by exact R; injection Hrun as <- _.
    exfalso; refine (not_in_docs _ _ _ F _ Hin); intros rq ->; discriminate.
Qed.

Lemma try_search_raise server v new tr o e :
  snd (search_body server v new) = Raise e ->
  try_except (search_body server v)
    (fun e => throw (Exception ("Search failed: " ++ exn_str e))) new = (tr, o) ->
  o = Raise (Exception ("Search failed: " ++ exn_str e)).
Proof.
  intros He H; unfold try_except in H; destruct (search_body server v new) as [tr2 [x | e']];
    simpl in He; [discriminate | injection He as ->; injection H as _ <-; reflexivity].
Qed.

(** C4 (as stated): the search failure carries the remote message
    verbatim.  On the service above, whose search answer is
    [{"data": null, "errors": [{"message": "Boom"}]}], the message is
    "Search failed: Boom". *)
Lemma C4_search_error_message_prefixed :
  snd (search_issues demo_server None None None None None None 10 [])
  = Raise (Exception "Search failed: Boom") /\
  "Search failed: Boom" <> "Boom".
Proof. split; [vm_compute; reflexivity | discriminate]. Qed.

(** C4 (amended): once the search query is posted, a response without a
    data payload makes [search_issues] raise an exception whose message
    starts with "Search failed: ", never return a list; after the prefix
    comes the first remote error message, or "Unknown error" when the
    response has no [errors] or the first error no [message]. *)
Theorem C4_no_data_raises_prefixed_error :
  (forall server query team_id status assignee_id labels priority limit tr o,
     (forall h rq, rq_doc rq = SearchIssuesQ ->
                   exists r, server h rq = Some r /\ no_data r) ->
     search_issues server query team_id status assignee_id labels priority limit [] = (tr, o) ->
     In SearchIssuesQ (map rq_doc tr) ->
     exists msg, o = Raise (Exception ("Search failed: " ++ msg))) /\
  (forall server query team_id status assignee_id labels priority limit msg tr o,
     (forall h rq, rq_doc rq = SearchIssuesQ ->
        exists r, server h rq = Some r /\ no_data r /\ first_error_message r msg) ->
     search_issues server query team_id status assignee_id labels priority limit [] = (tr, o) ->
     In SearchIssuesQ (map rq_doc tr) ->
     o = Raise (Exception ("Search failed: " ++ msg))).
Proof.
  split.
  - intros server query team_id status assignee_id labels priority limit tr o Hsrv Hrun Hin.
    destruct (search_issues_posted _ _ _ _ _ _ _ _ _ _ Hrun Hin) as (new & team & _ & H).
    match type of H with
    | try_except (search_body server ?v) _ new = _ =>
        destruct (Hsrv new (mk_request SearchIssuesQ (if truthy v then v else dict0)))
          as [r [S N]]; [reflexivity |];
        destruct (search_body_no_data server v r new S N) as [e He]
    end.
    eexists; exact (try_search_raise _ _ _ _ _ _ He H).
  - intros server query team_id status assignee_id labels priority limit msg tr o Hsrv Hrun Hin.
    destruct (search_issues_posted _ _ _ _ _ _ _ _ _ _ Hrun Hin) as (new & team & _ & H).
    match type of H with
    | try_except (search_body server ?v) _ new = _ =>
        destruct (Hsrv new (mk_request SearchIssuesQ (if truthy v then v else dict0)))
          as (r & S & N & Hm); [reflexivity |];
        pose proof (search_body_message server v r msg new S N Hm) as He
    end.
    exact (try_search_raise _ _ _ _ _ _ He H).
Qed.

Lemma C4_witness :
  (exists msg, snd (search_issues demo_server None (Some "OPS") None None None None 10 [])
               = Raise (Exception ("Search failed: " ++ msg))) /\
  snd (search_issues demo_server None (Some "OPS") None None None None 10 [])
  = Raise (Exception ("Search failed: " ++ "Boom")).
Proof.
  assert (H : forall h rq, rq_doc rq = SearchIssuesQ ->
                exists r, demo_server h rq = Some r /\ no_data r /\
                          first_error_message r "Boom").
  { intros h rq Hd; unfold demo_server; rewrite Hd; eexists; split; [reflexivity |].
    split; [reflexivity |].
    eexists; split; [reflexivity |].
    right; eexists _, _; split; [reflexivity | left; reflexivity]. }
  split.
  - apply (proj1 C4_no_data_raises_prefixed_error demo_server None (Some "OPS") None None
             None None 10%Z
             (fst (search_issues demo_server None (Some "OPS") None None None None 10 []))).
    + intros h rq Hd; destruct (H h rq Hd) as (r & S & N & _); eauto.
    + vm_compute; reflexivity.
    + vm_compute; auto.
  - apply (proj2 C4_no_data_raises_prefixed_error demo_server None (Some "OPS") None None
             None None 10%Z "Boom"
             (fst (search_issues demo_server None (Some "OPS") None None None None 10 []))).
    + exact H.
    + vm_compute; reflexivity.
    + vm_compute; auto.
Defined.

(** ** C6: team keys are resolved before the search *)

Lemma lookup_dict_set_same kv k v : lookup (dict_set kv k v) k = Some v.
Proof.
  induction kv as [| [k' v'] kv IH]; simpl.
  - rewrite String.eqb_refl; reflexivity.
  - destruct (String.eqb k k') eqn:E; simpl; [rewrite String.eqb_refl | rewrite E]; auto.
Qed.

Lemma lookup_dict_set_other kv k k2 v :
  String.eqb k2 k = false -> lookup (dict_set kv k v) k2 = lookup kv k2.
Proof.
  intro Hne; induction kv as [| [k' v'] kv IH]; simpl.
  - rewrite Hne; reflexivity.
  - destruct (String.eqb k k') eqn:E; simpl.
    + apply String.eqb_eq in E; subst k'; rewrite Hne; reflexivity.
    + destruct (String.eqb k2 k'); [reflexivity | exact IH].
Qed.

Lemma search_filter_team query team status assignee_id labels priority :
  truthy team = true ->
  lookup (search_filter query team status assignee_id labels priority) "team"
  = Some (PDict [("id", PDict [("eq", team)])]).
Proof.
  intro Ht; unfold search_filter; rewrite Ht.
  destruct priority; [rewrite lookup_dict_set_other by reflexivity |];
  (destruct (truthy (opt_labels labels)); [rewrite lookup_dict_set_other by reflexivity |]);
  (destruct (truthy (opt_str assignee_id)); [rewrite lookup_dict_set_other by reflexivity |]);
  (destruct (truthy (opt_str status)); [rewrite lookup_dict_set_other by reflexivity |]);
  apply lookup_dict_set_same.
Qed.

Lemma search_try_trace server v tr :
  fst (try_except (search_body server v)
         (fun e => throw (Exception ("Search failed: " ++ exn_str e))) tr)
  = (tr ++ [mk_request SearchIssuesQ (if truthy v then v else dict0)])%list.
Proof.
  assert (H : fst (search_body server v tr)
              = (tr ++ [mk_request SearchIssuesQ (if truthy v then v else dict0)])%list)
    by (unfold search_body; apply bind_exec_trace; intro; pure_costs).
  unfold try_except.
  destruct (search_body server v tr) as [tr1 [a | e]]; simpl in *; exact H.
Qed.

Lemma search_team_run server t tid tr :
  t <> "" -> has_dash t = false ->
  (forall h rq, rq_doc rq = TeamByKeyQ -> server h rq = Some (team_by_key_response tid)) ->
  search_team server (Some t) tr
  = ((tr ++ [mk_request TeamByKeyQ (PDict [("key", PStr t)])])%list, Ok (PStr tid)).
Proof.
  intros Ht Hd Hs; unfold search_team; rewrite (truthy_str _ Ht), Hd; simpl.
  unfold bind at 1, execute_query; simpl; rewrite Hs by reflexivity; reflexivity.
Qed.

Lemma search_filter_no_team query team status assignee_id labels priority :
  truthy team = false ->
  lookup (search_filter query team status assignee_id labels priority) "team" = None.
Proof.
  intro Ht; unfold search_filter; rewrite Ht.
  destruct priority; [rewrite lookup_dict_set_other by reflexivity |];
  (destruct (truthy (opt_labels labels)); [rewrite lookup_dict_set_other by reflexivity |]);
  (destruct (truthy (opt_str assignee_id)); [rewrite lookup_dict_set_other by reflexivity |]);
  (destruct (truthy (opt_str status)); [rewrite lookup_dict_set_other by reflexivity |]);
  destruct (truthy (opt_str query)); reflexivity.
Qed.

(** The lookup finds a team object whose [id] is [tid]. *)
Lemma search_team_found server resp t tid tr :
  t <> "" -> has_dash t = false ->
  (forall h rq, rq_doc rq = TeamByKeyQ -> server h rq = Some resp) ->
  dig resp ["data"; "team"; "id"] = Some (PStr tid) ->
  search_team server (Some t) tr
  = ((tr ++ [mk_request TeamByKeyQ (PDict [("key", PStr t)])])%list, Ok (PStr tid)).
Proof.
  intros Ht Hd Hs Hr; unfold search_team; rewrite (truthy_str _ Ht), Hd; simpl.
  rewrite (bind_ok _ _ _ _ _ (exec_run _ _ _ _ _ Hs)); cbv beta.
  dig_goal Hr; dig_goal Hr.
  rewrite (dig_truthy _ _ _ _ Hr).
  destruct w0 as [| | | | | kv]; try discriminate; simpl in Hr.
  destruct (lookup kv "id") eqn:E; [injection Hr as -> | discriminate].
  unfold pget, ret; rewrite E; reflexivity.
Qed.

(** C6 (as stated): every team identifier without "-" is looked up by
    key, and a team returned by the lookup gives the filter's
    [team.id.eq].  The empty identifier has no "-", and no lookup is
    posted; and when the lookup for "OPS" returns the team [{"id": ""}]
    (an object, so a team), the search carries no team condition at all. *)
Lemma C6_empty_team_id_no_lookup :
  (has_dash "" = false /\
   ~ In TeamByKeyQ
       (map rq_doc (fst (search_issues demo_server None (Some "") None None None None 10 [])))) /\
  (has_dash "OPS" = false /\
   truthy (PDict [("id", PStr "")]) = true /\
   fst (search_issues
          (fun h rq => match rq_doc rq with
                       | TeamByKeyQ => Some (team_by_key_response "")
                       | _ => demo_server h rq end)
          None (Some "OPS") None None None None 10 [])
   = [mk_request TeamByKeyQ (PDict [("key", PStr "OPS")]);
      mk_request SearchIssuesQ (search_variables 10 [])]).
Proof.
  split; [split; [reflexivity | vm_compute; intuition discriminate] |].
  split; [reflexivity | split; [reflexivity | vm_compute; reflexivity]].
Qed.

(** C6 (amended): for a non-empty team identifier [t] without "-", the
    first request is the team-by-key query for [t]; when it returns a
    team whose id is [tid], the search that follows filters on
    [team.id.eq = tid], or carries no team condition when [tid] is
    empty.  For an identifier with "-", the search is the only request
    and filters on [team.id.eq = t].  For the empty identifier, the
    search is the only request and carries no team condition. *)
Theorem C6_team_key_lookup_precedes_search :
  (forall server resp t tid query status assignee_id labels priority limit,
     t <> "" -> has_dash t = false ->
     (forall h rq, rq_doc rq = TeamByKeyQ -> server h rq = Some resp) ->
     dig resp ["data"; "team"; "id"] = Some (PStr tid) ->
     exists filter,
       fst (search_issues server query (Some t) status assignee_id labels priority limit [])
       = [mk_request TeamByKeyQ (PDict [("key", PStr t)]);
          mk_request SearchIssuesQ (search_variables limit filter)] /\
       lookup filter "team"
       = if String.eqb tid "" then None
         else Some (PDict [("id", PDict [("eq", PStr tid)])])) /\
  (forall server t query status assignee_id labels priority limit,
     has_dash t = true ->
     exists filter,
       fst (search_issues server query (Some t) status assignee_id labels priority limit [])
       = [mk_request SearchIssuesQ (search_variables limit filter)] /\
       lookup filter "team" = Some (PDict [("id", PDict [("eq", PStr t)])])) /\
  (forall server query status assignee_id labels priority limit,
     exists filter,
       fst (search_issues server query (Some "") status assignee_id labels priority limit [])
       = [mk_request SearchIssuesQ (search_variables limit filter)] /\
       lookup filter "team" = None).
Proof.
  split; [| split].
  - intros server resp t tid query status assignee_id labels priority limit Ht Hd Hs Hr.
    eexists; split.
    + unfold search_issues.
      erewrite bind_ok by exact (search_team_found server resp t tid [] Ht Hd Hs Hr).
      rewrite search_try_trace; reflexivity.
    + destruct (String.eqb tid "") eqn:E.
      * apply String.eqb_eq in E; subst tid; apply search_filter_no_team; reflexivity.
      * apply search_filter_team, truthy_str; intro; subst tid; discriminate.
  - intros server t query status assignee_id labels priority limit Hd.
    assert (Ht : t <> "") by (intro; subst t; discriminate).
    eexists; split.
    + unfold search_issues, bind at 1, search_team.
      rewrite (truthy_str _ Ht), Hd; simpl.
      rewrite search_try_trace; reflexivity.
    + apply search_filter_team, truthy_str, Ht.
  - intros server query status assignee_id labels priority limit.
    eexists; split.
    + unfold search_issues, bind at 1, search_team; simpl.
      rewrite search_try_trace; reflexivity.
    + apply search_filter_no_team; reflexivity.
Qed.

Lemma C6_witness :
  (exists filter,
     fst (search_issues demo_server None (Some "OPS") None None None None 10 [])
     = [mk_request TeamByKeyQ (PDict [("key", PStr "OPS")]);
        mk_request SearchIssuesQ (search_variables 10 filter)] /\
     lookup filter "team"
     = if String.eqb "team-uuid-1" "" then None
       else Some (PDict [("id", PDict [("eq", PStr "team-uuid-1")])])) /\
  (exists filter,
     fst (search_issues demo_server None (Some "TEAM-1") None None None None 10 [])
     = [mk_request SearchIssuesQ (search_variables 10 filter)] /\
     lookup filter "team" = Some (PDict [("id", PDict [("eq", PStr "TEAM-1")])])).
Proof.
  split.
  - apply (proj1 C6_team_key_lookup_precedes_search demo_server
             (team_by_key_response "team-uuid-1") "OPS" "team-uuid-1").
    + discriminate.
    + reflexivity.
    + intros h rq H; unfold demo_server; rewrite H; reflexivity.
    + reflexivity.
  - apply (proj1 (proj2 C6_team_key_lookup_precedes_search) demo_server "TEAM-1").
    reflexivity.
Defined.

(** ** C7: absent issue or team *)

(** The service answers the request posted at [tr] with [r]. *)
Lemma exec_at server d v r tr :
  server tr (mk_request d (if truthy v then v else dict0)) = Some r ->
  execute_query server d v tr
  = ((tr ++ [mk_request d (if truthy v then v else dict0)])%list, Ok r).
Proof. intro H; unfold execute_query; rewrite H; reflexivity. Qed.

Lemma get_issue_no_issue server issue_id resp tr :
  server tr (mk_request GetIssueQ (PDict [("id", PStr issue_id)])) = Some resp ->
  (entity_absent resp "issue" ->
   get_issue server issue_id tr
   = ((tr ++ [mk_request GetIssueQ (PDict [("id", PStr issue_id)])])%list,
      Raise (ValueError ("Issue " ++ issue_id ++ " not found")))) /\
  (forall v, data_not_object resp v ->
   get_issue server issue_id tr
   = ((tr ++ [mk_request GetIssueQ (PDict [("id", PStr issue_id)])])%list,
      Raise (no_get v))).
Proof.
  intro S; unfold get_issue.
  rewrite (bind_ok _ _ _ _ _ (exec_at _ _ (PDict [("id", PStr issue_id)]) _ _ S)); cbv beta.
  split.
  - intros (kv & -> & A); unfold bind, pget, ret, throw.
    destruct A as [A | (d & A & B)]; rewrite A; [reflexivity |].
    destruct (lookup d "issue") as [v |]; simpl; [rewrite B |]; reflexivity.
  - intros v (kv & -> & A & N); unfold bind, pget, ret, throw; rewrite A.
    destruct v as [| | | | | d]; try reflexivity; exfalso; exact (N d eq_refl).
Qed.

Lemma get_team_issues_no_team server team_id resp tr :
  server tr (mk_request GetTeamIssuesQ (PDict [("teamId", PStr team_id)])) = Some resp ->
  (entity_absent resp "team" ->
   get_team_issues server team_id tr
   = ((tr ++ [mk_request GetTeamIssuesQ (PDict [("teamId", PStr team_id)])])%list,
      Raise (ValueError ("Team " ++ team_id ++ " not found")))) /\
  (forall v, data_not_object resp v ->
   get_team_issues server team_id tr
   = ((tr ++ [mk_request GetTeamIssuesQ (PDict [("teamId", PStr team_id)])])%list,
      Raise (no_get v))).
Proof.
  intro S; unfold get_team_issues.
  rewrite (bind_ok _ _ _ _ _ (exec_at _ _ (PDict [("teamId", PStr team_id)]) _ _ S)).
  cbv beta.
  split.
  - intros (kv & -> & A); unfold bind, pget, ret, throw.
    destruct A as [A | (d & A & B)]; rewrite A; [reflexivity |].
    destruct (lookup d "team") as [v |]; simpl; [rewrite B |]; reflexivity.
  - intros v (kv & -> & A & N); unfold bind, pget, ret, throw; rewrite A.
    destruct v as [| | | | | d]; try reflexivity; exfalso; exact (N d eq_refl).
Qed.




(** ** C10: empty strings are treated as absent *)

(** C10: an empty string (or an empty label list) given for an optional
    argument gates nothing: each method below behaves, request for
    request and result for result, as with the argument omitted.
    [create_issue] and [update_issue] with status "" post only their
    mutation, without a state id; [search_issues] with query, team,
    status, assignee "" or labels [] posts the filter without that
    condition (and no team lookup); [add_comment] with [create_as_user]
    or [display_icon_url] "" sends no such field. *)
Theorem C10_empty_string_treated_as_absent :
  (forall server title team_id description priority,
     create_issue server title team_id description priority (Some "")
     = create_issue server title team_id description priority None /\
     fst (create_issue server title team_id description priority (Some "") [])
     = [mk_request CreateIssueM
          (PDict [("input", create_input title team_id description priority PNone)])]) /\
  (forall server issue_id title description priority,
     update_issue server issue_id title description priority (Some "")
     = update_issue server issue_id title description priority None /\
     fst (update_issue server issue_id title description priority (Some "") [])
     = [mk_request UpdateIssueM (update_variables issue_id title description priority PNone)]) /\
  (forall server team_id status assignee_id labels priority limit,
     search_issues server (Some "") team_id status assignee_id labels priority limit
     = search_issues server None team_id status assignee_id labels priority limit) /\
  (forall server query status assignee_id labels priority limit,
     search_issues server query (Some "") status assignee_id labels priority limit
     = search_issues server query None status assignee_id labels priority limit) /\
  (forall server query team_id assignee_id labels priority limit,
     search_issues server query team_id (Some "") assignee_id labels priority limit
     = search_issues server query team_id None assignee_id labels priority limit) /\
  (forall server query team_id status labels priority limit,
     search_issues server query team_id status (Some "") labels priority limit
     = search_issues server query team_id status None labels priority limit) /\
  (forall server query team_id status assignee_id priority limit,
     search_issues server query team_id status assignee_id (Some []) priority limit
     = search_issues server query team_id status assignee_id None priority limit) /\
  (forall server issue_id body display_icon_url,
     add_comment server issue_id body (Some "") display_icon_url
     = add_comment server issue_id body None display_icon_url) /\
  (forall server issue_id body create_as_user,
     add_comment server issue_id body create_as_user (Some "")
     = add_comment server issue_id body create_as_user None).
Proof.
  split; [| split; [| split; [| split; [| split; [| split; [| split; [| split]]]]]]].
  - intros; split; [reflexivity |].
    unfold create_issue; erewrite bind_ok by reflexivity.
    rewrite bind_exec_trace by (intro; pure_costs); reflexivity.
  - intros; split; [reflexivity |].
    unfold update_issue; erewrite bind_ok by reflexivity.
    rewrite bind_exec_trace by (intro; pure_costs); reflexivity.
  - reflexivity.
  - reflexivity.
  - reflexivity.
  - reflexivity.
  - reflexivity.
  - reflexivity.
  - reflexivity.
Qed.

(** ** C9: explicit nulls in the projections *)

Ltac node_cases :=
  repeat match goal with
  | H : exists kv, _ |- _ => destruct H as (? & H)
  | H : _ /\ _ |- _ => destruct H
  | H : PDict _ = PDict _ |- _ => injection H as H; subst
  | H : has_keys _ _ |- _ => unfold has_keys in H
  | H : Forall _ (_ :: _) |- _ => inversion H; clear H; subst
  | H : Forall _ [] |- _ => clear H
  | H : lookup ?kv ?k <> None |- _ =>
      destruct (lookup kv k) eqn:?; [clear H | congruence]
  | H : dict_absent_or_null ?kv ?k |- _ =>
      unfold dict_absent_or_null in H;
      destruct (lookup kv k) as [[] |] eqn:?; try contradiction; clear H
  | H : dict_or_absent ?kv ?k |- _ =>
      unfold dict_or_absent in H;
      destruct (lookup kv k) as [[] |] eqn:?; try contradiction; clear H
  end.

Ltac no_null :=
  exfalso;
  repeat match goal with H : Exists _ _ |- _ => inversion H; clear H; subst end;
  congruence.

Definition subs3 : list string := ["state"; "assignee"; "team"].

Lemma project_issue_null v tr :
  null_sub_node ["id"; "identifier"; "title"; "description"] subs3 v ->
  project_issue v tr = (tr, Raise attr_none).
Proof.
  intro H; destruct H as (kv & -> & H); unfold subs3 in H.
  unfold project_issue, bind, pitem, pget, ret, throw, attr_none.
  node_cases; try no_null; reflexivity.
Qed.

Lemma project_list_issue_ok v tr :
  well_formed_node ["id"; "title"; "identifier"] subs3 v ->
  exists y, project_list_issue v tr = (tr, Ok y).
Proof.
  intro H; destruct H as (kv & -> & H); unfold subs3 in H.
  unfold project_list_issue, bind, pitem, pget, ret, throw.
  node_cases; eexists; reflexivity.
Qed.

Lemma project_list_issue_null v tr :
  null_sub_node ["id"; "title"; "identifier"] subs3 v ->
  project_list_issue v tr = (tr, Raise attr_none).
Proof.
  intro H; destruct H as (kv & -> & H); unfold subs3 in H.
  unfold project_list_issue, bind, pitem, pget, ret, throw, attr_none.
  node_cases; try no_null; reflexivity.
Qed.

Lemma project_team_issue_ok v tr :
  well_formed_node ["id"; "identifier"; "title"; "url"] ["state"; "assignee"] v ->
  exists y, project_team_issue v tr = (tr, Ok y).
Proof.
  intro H; destruct H as (kv & -> & H).
  unfold project_team_issue, bind, pitem, pget, ret, throw.
  node_cases; eexists; reflexivity.
Qed.

Lemma project_team_issue_null v tr :
  null_sub_node ["id"; "identifier"; "title"; "url"] ["state"; "assignee"] v ->
  project_team_issue v tr = (tr, Raise attr_none).
Proof.
  intro H; destruct H as (kv & -> & H).
  unfold project_team_issue, bind, pitem, pget, ret, throw, attr_none.
  node_cases; try no_null; reflexivity.
Qed.

(** A comprehension stops at the first element that raises. *)
Lemma map_m_first_raise {A B} (f : A -> M B) (P : A -> Prop) goods bad rest e tr :
  (forall x, P x -> exists y, f x tr = (tr, Ok y)) ->
  Forall P goods -> f bad tr = (tr, Raise e) ->
  map_m f (goods ++ bad :: rest) tr = (tr, Raise e).
Proof.
  intros Hok Hg Hb; induction Hg as [| x goods Hx Hg IH]; simpl.
  - erewrite bind_raise by exact Hb; reflexivity.
  - destruct (Hok x Hx) as [y Hy].
    erewrite bind_ok by exact Hy; erewrite bind_raise by exact IH; reflexivity.
Qed.

Lemma has_keys_truthy kv k ks : has_keys kv (k :: ks) -> truthy (PDict kv) = true.
Proof. intro H; destruct kv; [inversion H; contradiction | reflexivity]. Qed.

Ltac pure_steps := repeat (erewrite bind_ok by reflexivity; simpl).

Lemma lookup_in_keys kv k v : lookup kv k = Some v -> In k (map fst kv).
Proof.
  induction kv as [| [k' v'] kv IH]; simpl; [discriminate |].
  destruct (String.eqb k k') eqn:E; [apply String.eqb_eq in E; auto | auto].
Qed.

(** A node of the team listing has no [team] key: its null nested object
    is [state] or [assignee]. *)
Lemma team_issue_null_node keys v :
  null_sub_node keys subs3 v -> selected_only team_issue_fields v ->
  null_sub_node keys ["state"; "assignee"] v.
Proof.
  intros (kv & -> & Hk & Hf & Hx) (kv' & E & Hsel); injection E as <-.
  assert (Ht : lookup kv "team" = None).
  { destruct (lookup kv "team") eqn:L; [| reflexivity].
    apply lookup_in_keys in L; rewrite Forall_forall in Hsel.
    apply Hsel in L; simpl in L; intuition discriminate. }
  unfold subs3 in Hf, Hx.
  exists kv; split; [reflexivity | split; [exact Hk | split]].
  - constructor; [exact (Forall_inv Hf) |].
    constructor; [exact (Forall_inv (Forall_inv_tail Hf)) | constructor].
  - apply Exists_cons in Hx; destruct Hx as [H | Hx]; [apply Exists_cons; left; exact H |].
    apply Exists_cons in Hx; destruct Hx as [H | Hx].
    + apply Exists_cons; right; apply Exists_cons; left; exact H.
    + apply Exists_cons in Hx; destruct Hx as [H | Hx]; [congruence |].
      apply Exists_nil in Hx; contradiction.
Qed.

(** C9: the projections are not total on explicit nulls.  [get_issue]
    and [list_issues] raise [AttributeError] ([None.get]) on an issue
    whose [state], [assignee] or [team] is present but null (the other
    nested objects being objects, absent or null; the issues before it
    in the list well formed); so does [get_team_issues], on the issue
    nodes its query can return, which hold no [team]. *)
Theorem C9_null_nested_object_raises :
  (forall server issue_id v,
     null_sub_node ["id"; "identifier"; "title"; "description"] subs3 v ->
     (forall h rq, rq_doc rq = GetIssueQ ->
                   server h rq = Some (PDict [("data", PDict [("issue", v)])])) ->
     snd (get_issue server issue_id []) = Raise attr_none) /\
  (forall server limit goods bad rest,
     Forall (well_formed_node ["id"; "title"; "identifier"] subs3) goods ->
     null_sub_node ["id"; "title"; "identifier"] subs3 bad ->
     (forall h rq, rq_doc rq = ListIssuesQ ->
        server h rq = Some (PDict [("data", PDict [("issues",
                                PDict [("nodes", PList (goods ++ bad :: rest))])])])) ->
     snd (list_issues server limit []) = Raise attr_none) /\
  (forall server team_id goods bad rest,
     Forall (well_formed_node ["id"; "identifier"; "title"; "url"] ["state"; "assignee"]) goods ->
     null_sub_node ["id"; "identifier"; "title"; "url"] subs3 bad ->
     selected_only team_issue_fields bad ->
     (forall h rq, rq_doc rq = GetTeamIssuesQ ->
        server h rq = Some (PDict [("data", PDict [("team", PDict [("issues",
                                PDict [("nodes", PList (goods ++ bad :: rest))])])])])) ->
     snd (get_team_issues server team_id []) = Raise attr_none).
Proof.
  split; [| split].
  - intros server issue_id v Hv Hs.
    assert (Ht : truthy v = true)
      by (destruct Hv as (kv & -> & Hk & _); exact (has_keys_truthy _ _ _ Hk)).
    unfold get_issue, bind at 1, execute_query; simpl; rewrite Hs by reflexivity.
    pure_steps; rewrite Ht; simpl.
    rewrite project_issue_null by exact Hv; reflexivity.
  - intros server limit goods bad rest Hg Hb Hs.
    unfold list_issues, bind at 1, execute_query; simpl; rewrite Hs by reflexivity.
    pure_steps.
    erewrite bind_raise; [reflexivity |].
    apply (map_m_first_raise _ (well_formed_node ["id"; "title"; "identifier"] subs3)).
    + intros x Hx; apply project_list_issue_ok, Hx.
    + exact Hg.
    + apply project_list_issue_null, Hb.
  - intros server team_id goods bad rest Hg Hb Hsel Hs.
    apply (team_issue_null_node _ _ Hb) in Hsel; clear Hb; rename Hsel into Hb.
    unfold get_team_issues, bind at 1, execute_query; simpl; rewrite Hs by reflexivity.
    pure_steps.
    erewrite bind_raise; [reflexivity |].
    apply (map_m_first_raise _
             (well_formed_node ["id"; "identifier"; "title"; "url"] ["state"; "assignee"])).
    + intros x Hx; apply project_team_issue_ok, Hx.
    + exact Hg.
    + apply project_team_issue_null, Hb.
Qed.

Definition issue_null_state : pyval :=
  PDict [("id", PStr "i-1"); ("identifier", PStr "TEAM-1"); ("title", PStr "Fix login bug");
         ("description", PStr "d"); ("url", PStr "u"); ("state", PNone);
         ("assignee", PDict [("name", PStr "Ann")])].

Ltac node_facts :=
  eexists; split; [reflexivity |];
  repeat split; repeat constructor; vm_compute; try discriminate; try exact I.

Lemma C9_witness :
  snd (get_issue (fun _ _ => Some (PDict [("data", PDict [("issue", issue_null_state)])]))
         "TEAM-1" []) = Raise attr_none /\
  snd (list_issues (fun _ _ => Some (PDict [("data", PDict [("issues",
         PDict [("nodes", PList [issue_null_state])])])])) 10%Z []) = Raise attr_none /\
  snd (get_team_issues (fun _ _ => Some (PDict [("data", PDict [("team", PDict [("issues",
         PDict [("nodes", PList [issue_null_state])])])])])) "TEAM" []) = Raise attr_none.
Proof.
  split; [| split].
  - apply (proj1 C9_null_nested_object_raises _ "TEAM-1" issue_null_state);
      [node_facts | reflexivity].
  - apply (proj1 (proj2 C9_null_nested_object_raises) _ 10%Z [] issue_null_state []);
      [constructor | node_facts | reflexivity].
  - apply (proj2 (proj2 C9_null_nested_object_raises) _ "TEAM" [] issue_null_state []);
      [constructor | node_facts | | reflexivity].
    eexists; split; [reflexivity |]; repeat constructor; simpl; tauto.
Defined.

(** ** Further properties of the client and of the MCP server *)

Lemma bind_ok_inv {A B} (m : M A) (f : A -> M B) tr tr' b :
  bind m f tr = (tr', Ok b) ->
  exists tr1 a, m tr = (tr1, Ok a) /\ f a tr1 = (tr', Ok b).
Proof.
  unfold bind; destruct (m tr) as [tr1 [a | e]]; [eauto | discriminate].
Qed.

Lemma try_ok {A} (m : M A) h tr tr' a :
  m tr = (tr', Ok a) -> try_except m h tr = (tr', Ok a).
Proof. intro H; unfold try_except; rewrite H; reflexivity. Qed.

Lemma try_raise {A} (m : M A) h tr tr' e :
  m tr = (tr', Raise e) -> try_except m h tr = h e tr'.
Proof. intro H; unfold try_except; rewrite H; reflexivity. Qed.

Lemma try_handled {A} (m : M A) (f : exn -> A) tr :
  exists x, snd (try_except m (fun e => ret (f e)) tr) = Ok x.
Proof. unfold try_except; destruct (m tr) as [tr1 [a | e]]; eexists; reflexivity. Qed.



(** A request followed by pure code, under further binds. *)
Lemma bind_exec_trace2 {B C} server d v (f : pyval -> M B) (g : B -> M C) tr :
  (forall a, costs 0 (f a)) -> (forall b, costs 0 (g b)) ->
  fst (bind (bind (execute_query server d v) f) g tr)
  = (tr ++ [mk_request d (if truthy v then v else dict0)])%list.
Proof.
  intros Hf Hg; rewrite bind_assoc; apply bind_exec_trace.
  intro a; apply costs_bind_pure; auto.
Qed.

(** X1: each read operation, [add_comment], [get_viewer] and
    [get_organization] post exactly one request, with these variables,
    whatever the service answers (also when it fails); [get_user_issues]
    asks about the viewer when the user id is omitted or empty, and
    [get_viewer] and [get_organization] send the empty variables [{}]. *)
Theorem single_request_operations :
  forall server tr,
  (forall limit, fst (list_issues server limit tr)
                 = (tr ++ [mk_request ListIssuesQ (PDict [("first", PInt limit)])])%list) /\
  (forall i, fst (get_issue server i tr)
             = (tr ++ [mk_request GetIssueQ (PDict [("id", PStr i)])])%list) /\
  (forall t, fst (get_team_issues server t tr)
             = (tr ++ [mk_request GetTeamIssuesQ (PDict [("teamId", PStr t)])])%list) /\
  (forall u a n, fst (get_user_issues server u a n tr)
     = (tr ++ [if truthy (opt_str u)
               then mk_request UserIssuesQ
                      (PDict [("userId", opt_str u); ("first", PInt n);
                              ("includeArchived", PBool a)])
               else mk_request ViewerIssuesQ
                      (PDict [("first", PInt n); ("includeArchived", PBool a)])])%list) /\
  (forall i b c d, fst (add_comment server i b c d tr)
     = (tr ++ [mk_request CreateCommentM (PDict [("input", PDict (comment_input i b c d))])])%list) /\
  fst (get_viewer server tr) = (tr ++ [mk_request ViewerQ dict0])%list /\
  fst (get_organization server tr) = (tr ++ [mk_request OrganizationQ dict0])%list.
Proof.
  intros server tr; repeat split; intros.
  - unfold list_issues; rewrite bind_exec_trace by (intro; pure_costs); reflexivity.
  - unfold get_issue; rewrite bind_exec_trace by (intro; pure_costs); reflexivity.
  - unfold get_team_issues; rewrite bind_exec_trace by (intro; pure_costs); reflexivity.
  - unfold get_user_issues; destruct (truthy (opt_str u));
      rewrite bind_exec_trace2 by (intro; pure_costs); reflexivity.
  - unfold add_comment; rewrite bind_exec_trace by (intro; pure_costs); reflexivity.
  - unfold get_viewer; rewrite bind_exec_trace by (intro; pure_costs); reflexivity.
  - unfold get_organization; rewrite bind_exec_trace by (intro; pure_costs); reflexivity.
Qed.

(** X2: no tool raises: whatever the client does, each tool returns a
    text; an exception [e] of the client becomes the text
    "Error: Failed to <operation> - " followed by [str(e)], after the
    requests the client posted. *)
Theorem main_tools_report_errors :
  forall (lc : option (trace -> request -> option pyval)) tr,
  ((forall ti te d p s, exists x, snd (Main.linear_create_issue lc ti te d p s tr) = Ok x) /\
   (forall i ti d p s, exists x, snd (Main.linear_update_issue lc i ti d p s tr) = Ok x) /\
   (forall q t s a l p e ia n,
      exists x, snd (Main.linear_search_issues lc q t s a l p e ia n tr) = Ok x) /\
   (forall u ia n, exists x, snd (Main.linear_get_user_issues lc u ia n tr) = Ok x) /\
   (forall i b c u, exists x, snd (Main.linear_add_comment lc i b c u tr) = Ok x)) /\
  (forall c tr' e,
   (forall ti te d p s, create_issue c ti te d p s tr = (tr', Raise e) ->
      Main.linear_create_issue (Some c) ti te d p s tr
      = (tr', Ok (Text ("Error: Failed to create issue - " ++ exn_str e)))) /\
   (forall i ti d p s, update_issue c i ti d p s tr = (tr', Raise e) ->
      Main.linear_update_issue (Some c) i ti d p s tr
      = (tr', Ok (Text ("Error: Failed to update issue - " ++ exn_str e)))) /\
   (forall q t s a l p est ia n, search_issues c q t s a l p n tr = (tr', Raise e) ->
      Main.linear_search_issues (Some c) q t s a l p est ia n tr
      = (tr', Ok (Text ("Error: Failed to search issues - " ++ exn_str e)))) /\
   (forall u ia n, get_user_issues c u ia n tr = (tr', Raise e) ->
      Main.linear_get_user_issues (Some c) u ia n tr
      = (tr', Ok (Text ("Error: Failed to get user issues - " ++ exn_str e)))) /\
   (forall i b cu u, add_comment c i b cu u tr = (tr', Raise e) ->
      Main.linear_add_comment (Some c) i b cu u tr
      = (tr', Ok (Text ("Error: Failed to add comment - " ++ exn_str e))))).
Proof.
  intros lc tr; split.
  - repeat split; intros; destruct lc as [cl |]; try (eexists; reflexivity);
      apply try_handled.
  - intros c tr' e; repeat split; intros; simpl;
      (erewrite try_raise; [reflexivity |]); erewrite bind_raise; eauto.
Qed.

(** X3: no resource raises, whatever the client does; a missing issue
    or team becomes an error object: [{"error": "Failed to get issue:
    Issue <id> not found"}] (resp. "Failed to get team issues: Team <id>
    not found") when the [data] object holds no issue (team), and the
    text of the [AttributeError] of [.get] when [data] itself is null or
    not an object; one request in each case. *)
Theorem resources_report_missing_entities :
  (forall (lc : option (trace -> request -> option pyval)) tr,
     (forall i, exists x, snd (Main.get_issue lc i tr) = Ok x) /\
     (forall t, exists x, snd (Main.get_team_issues lc t tr) = Ok x) /\
     (forall u, exists x, snd (Main.get_user_assigned lc u tr) = Ok x) /\
     (exists x, snd (Main.get_organization lc tr) = Ok x) /\
     (exists x, snd (Main.get_viewer lc tr) = Ok x)) /\
  (forall server resp issue_id tr,
     server tr (mk_request GetIssueQ (PDict [("id", PStr issue_id)])) = Some resp ->
     (entity_absent resp "issue" ->
      Main.get_issue (Some server) issue_id tr
      = ((tr ++ [mk_request GetIssueQ (PDict [("id", PStr issue_id)])])%list,
         Ok (PDict [("error", PStr ("Failed to get issue: Issue " ++ issue_id
                                    ++ " not found"))]))) /\
     (forall v, data_not_object resp v ->
      Main.get_issue (Some server) issue_id tr
      = ((tr ++ [mk_request GetIssueQ (PDict [("id", PStr issue_id)])])%list,
         Ok (PDict [("error", PStr ("Failed to get issue: '" ++ type_name v
                                    ++ "' object has no attribute 'get'"))])))) /\
  (forall server resp team_id tr,
     server tr (mk_request GetTeamIssuesQ (PDict [("teamId", PStr team_id)])) = Some resp ->
     (entity_absent resp "team" ->
      Main.get_team_issues (Some server) team_id tr
      = ((tr ++ [mk_request GetTeamIssuesQ (PDict [("teamId", PStr team_id)])])%list,
         Ok (PDict [("error", PStr ("Failed to get team issues: Team " ++ team_id
                                    ++ " not found"))]))) /\
     (forall v, data_not_object resp v ->
      Main.get_team_issues (Some server) team_id tr
      = ((tr ++ [mk_request GetTeamIssuesQ (PDict [("teamId", PStr team_id)])])%list,
         Ok (PDict [("error", PStr ("Failed to get team issues: '" ++ type_name v
                                    ++ "' object has no attribute 'get'"))])))).
Proof.
  split; [| split].
  - intros lc tr; repeat split; intros; destruct lc as [cl |];
      try (eexists; reflexivity); apply try_handled.
  - intros server resp issue_id tr S; destruct (get_issue_no_issue _ _ _ _ S) as [A N].
    split; [intro H | intros v H]; cbn [Main.get_issue];
      [rewrite (try_raise _ _ _ _ _ (bind_raise _ _ _ _ _ (A H)))
      | rewrite (try_raise _ _ _ _ _ (bind_raise _ _ _ _ _ (N v H)))]; reflexivity.
  - intros server resp team_id tr S; destruct (get_team_issues_no_team _ _ _ _ S) as [A N].
    split; [intro H | intros v H]; cbn [Main.get_team_issues];
      [rewrite (try_raise _ _ _ _ _ (bind_raise _ _ _ _ _ (A H)))
      | rewrite (try_raise _ _ _ _ _ (bind_raise _ _ _ _ _ (N v H)))]; reflexivity.
Qed.

Lemma map_m_length {A B} (f : A -> M B) xs tr tr' ys :
  map_m f xs tr = (tr', Ok ys) -> length ys = length xs.
Proof.
  revert tr tr' ys; induction xs as [| x xs IH]; simpl; intros tr tr' ys H.
  - injection H as _ <-; reflexivity.
  - apply bind_ok_inv in H; destruct H as (tr1 & y & _ & H).
    apply bind_ok_inv in H; destruct H as (tr2 & zs & Hz & H).
    injection H as _ <-; simpl; f_equal; exact (IH _ _ _ Hz).
Qed.

Lemma listing_tail f nodes tr tr' v :
  bind (piter (PList nodes)) (fun xs => ys <- map_m f xs ;; ret (PList ys)) tr
  = (tr', Ok v) ->
  exists ys, v = PList ys /\ length ys = length nodes.
Proof.
  intro H; rewrite (bind_ok _ _ _ _ _ eq_refl) in H.
  apply bind_ok_inv in H; destruct H as (tr1 & ys & Hy & H).
  injection H as _ <-; exists ys; split; [reflexivity | exact (map_m_length _ _ _ _ _ Hy)].
Qed.

(** X4: the listings drop no node: when [list_issues],
    [get_team_issues], [get_user_issues] or [search_issues] returns, it
    returns a list with exactly one record per node of the response's
    [nodes] list. *)
Theorem listings_one_record_per_node :
  (forall server resp nodes limit tr tr' v,
     (forall h rq, rq_doc rq = ListIssuesQ -> server h rq = Some resp) ->
     dig resp ["data"; "issues"; "nodes"] = Some (PList nodes) ->
     list_issues server limit tr = (tr', Ok v) ->
     exists ys, v = PList ys /\ length ys = length nodes) /\
  (forall server resp nodes team_id tr tr' v,
     (forall h rq, rq_doc rq = GetTeamIssuesQ -> server h rq = Some resp) ->
     dig resp ["data"; "team"; "issues"; "nodes"] = Some (PList nodes) ->
     get_team_issues server team_id tr = (tr', Ok v) ->
     exists ys, v = PList ys /\ length ys = length nodes) /\
  (forall server resp nodes user_id include_archived limit tr tr' v,
     (forall h rq, rq_doc rq = (if truthy (opt_str user_id) then UserIssuesQ
                                else ViewerIssuesQ) -> server h rq = Some resp) ->
     dig resp ["data"; if truthy (opt_str user_id) then "user" else "viewer";
               "assignedIssues"; "nodes"] = Some (PList nodes) ->
     get_user_issues server user_id include_archived limit tr = (tr', Ok v) ->
     exists ys, v = PList ys /\ length ys = length nodes) /\
  (forall server resp nodes query team_id status assignee_id labels priority limit
          tr tr' v,
     (forall h rq, rq_doc rq = SearchIssuesQ -> server h rq = Some resp) ->
     dig resp ["data"; "issues"; "nodes"] = Some (PList nodes) ->
     search_issues server query team_id status assignee_id labels priority limit tr
     = (tr', Ok v) ->
     exists ys, v = PList ys /\ length ys = length nodes).
Proof.
  split; [| split; [| split]].
  - intros server resp nodes limit tr tr' v Hs Hd H; unfold list_issues in H.
    rewrite (bind_ok _ _ _ _ _ (exec_run _ _ _ _ _ Hs)) in H.
    dig_in H Hd; dig_in H Hd; dig_in H Hd; injection Hd as ->.
    exact (listing_tail _ _ _ _ _ H).
  - intros server resp nodes team_id tr tr' v Hs Hd H; unfold get_team_issues in H.
    rewrite (bind_ok _ _ _ _ _ (exec_run _ _ _ _ _ Hs)) in H.
    pose proof Hd as Hd0.
    dig_in H Hd; dig_in H Hd; rewrite (dig_truthy _ _ _ _ Hd) in H; simpl in H.
    dig_in H Hd0; dig_in H Hd0; dig_in H Hd0; dig_in H Hd0; injection Hd0 as ->.
    exact (listing_tail _ _ _ _ _ H).
  - intros server resp nodes user_id include_archived limit tr tr' v Hs Hd H.
    unfold get_user_issues in H; destruct (truthy (opt_str user_id));
      rewrite bind_assoc, (bind_ok _ _ _ _ _ (exec_run _ _ _ _ _ Hs)) in H;
      cbv beta in H;
      dig_in H Hd; dig_in H Hd; dig_in H Hd; dig_in H Hd; injection Hd as ->;
      exact (listing_tail _ _ _ _ _ H).
  - intros server resp nodes query team_id status assignee_id labels priority limit
      tr tr' v Hs Hd H; unfold search_issues in H.
    apply bind_ok_inv in H; destruct H as (tr1 & team & _ & H).
    unfold try_except in H; unfold search_body in H.
    rewrite (bind_ok _ _ _ _ _ (exec_run _ _ _ _ _ Hs)) in H.
    pose proof Hd as Hd0.
    dig_in H Hd; rewrite (dig_truthy _ _ _ _ Hd) in H; simpl in H.
    dig_in H Hd; dig_in H Hd; injection Hd as ->.
    destruct (bind (piter (PList nodes)) _ _) as [tr2 [a | e]] eqn:E in H.
    + injection H as -> ->; exact (listing_tail _ _ _ _ _ E).
    + discriminate.
Qed.

Lemma pget_absent kv k dflt tr :
  lookup kv k = None -> pget (PDict kv) k dflt tr = (tr, Ok dflt).
Proof. intro H; unfold pget, ret; rewrite H; reflexivity. Qed.

(** A null payload: [data] null, or the object under it null. *)
Lemma null_payload resp key :
  dig resp ["data"] = Some PNone \/ dig resp ["data"; key] = Some PNone ->
  exists kv, resp = PDict kv /\
    (lookup kv "data" = Some PNone \/
     exists d, lookup kv "data" = Some (PDict d) /\ lookup d key = Some PNone).
Proof.
  destruct resp as [| | | | | kv]; intros [H | H]; try discriminate; exists kv;
    split; auto; simpl in H.
  - destruct (lookup kv "data"); [injection H as ->; auto | discriminate].
  - destruct (lookup kv "data") as [[| | | | | d] |]; try discriminate.
    right; exists d; split; auto; simpl in H.
    destruct (lookup d key); [injection H as ->; auto | discriminate].
Qed.

(** X5: a status that cannot be resolved because the service answers
    with a null payload aborts the operation before its mutation:
    [create_issue] raises [AttributeError] ([None.get]) when the states
    answer has a null [data] or [data.team], and [update_issue] when the
    issue lookup has a null [data] or [data.issue]; only the lookup was
    posted.  When the looked-up issue has no [team] key, [update_issue]
    posts no states query and sends its mutation without [stateId]. *)
Theorem unresolvable_status :
  (forall server resp title team_id description priority status tr,
     status <> "" ->
     (forall h rq, rq_doc rq = StatesQ -> server h rq = Some resp) ->
     dig resp ["data"] = Some PNone \/ dig resp ["data"; "team"] = Some PNone ->
     create_issue server title team_id description priority (Some status) tr
     = ((tr ++ [mk_request StatesQ (PDict [("teamId", PStr team_id)])])%list,
        Raise attr_none)) /\
  (forall server resp issue_id title description priority status tr,
     status <> "" ->
     (forall h rq, rq_doc rq = IssueTeamQ -> server h rq = Some resp) ->
     dig resp ["data"] = Some PNone \/ dig resp ["data"; "issue"] = Some PNone ->
     update_issue server issue_id title description priority (Some status) tr
     = ((tr ++ [mk_request IssueTeamQ (PDict [("id", PStr issue_id)])])%list,
        Raise attr_none)) /\
  (forall server resp kv issue_id title description priority status tr,
     status <> "" ->
     (forall h rq, rq_doc rq = IssueTeamQ -> server h rq = Some resp) ->
     dig resp ["data"; "issue"] = Some (PDict kv) -> lookup kv "team" = None ->
     fst (update_issue server issue_id title description priority (Some status) tr)
     = (tr ++ [mk_request IssueTeamQ (PDict [("id", PStr issue_id)]);
               mk_request UpdateIssueM
                 (update_variables issue_id title description priority PNone)])%list).
Proof.
  split; [| split].
  - intros server resp title team_id description priority status tr Hs Hr Hd.
    destruct (null_payload _ _ Hd) as (kv & -> & [A | (d & A & B)]);
      unfold create_issue, create_state_id, fetch_states; rewrite (truthy_str _ Hs);
      unfold bind at 1 2 3, execute_query; simpl; rewrite Hr by reflexivity;
      unfold bind, pget, ret, throw; rewrite A; try rewrite B; reflexivity.
  - intros server resp issue_id title description priority status tr Hs Hr Hd.
    destruct (null_payload _ _ Hd) as (kv & -> & [A | (d & A & B)]);
      unfold update_issue, update_state_id; rewrite (truthy_str _ Hs);
      unfold bind at 1 2, execute_query; simpl; rewrite Hr by reflexivity;
      unfold bind, pget, ret, throw; rewrite A; try rewrite B; reflexivity.
  - intros server resp kv issue_id title description priority status tr Hs Hr Hd Ht.
    unfold update_issue, update_state_id; rewrite (truthy_str _ Hs).
    rewrite !bind_assoc, (bind_ok _ _ _ _ _ (exec_run _ _ _ _ _ Hr)); cbv beta.
    dig_goal Hd; dig_goal Hd; injection Hd as ->.
    rewrite !bind_assoc, (bind_ok _ _ _ _ _ (pget_absent _ _ _ _ Ht)); cbv beta.
    rewrite (bind_ok _ _ _ _ _ eq_refl); simpl.
    rewrite bind_exec_trace by (intro; pure_costs).
    rewrite <- app_assoc; reflexivity.
Qed.

(** A falsy team under [data], or no [data] object at all. *)
Definition team_missing (resp : pyval) : Prop :=
  exists kv, resp = PDict kv /\
    (lookup kv "data" = None \/
     exists d, lookup kv "data" = Some (PDict d) /\
       match lookup d "team" with None => True | Some v => truthy v = false end).

Lemma search_team_missing server resp t tr :
  t <> "" -> has_dash t = false ->
  (forall h rq, rq_doc rq = TeamByKeyQ -> server h rq = Some resp) ->
  team_missing resp ->
  search_team server (Some t) tr
  = ((tr ++ [mk_request TeamByKeyQ (PDict [("key", PStr t)])])%list, Ok (PStr t)).
Proof.
  intros Ht Hd Hs (kv & -> & [A | (d & A & B)]);
    unfold search_team; rewrite (truthy_str _ Ht), Hd; simpl;
    unfold bind at 1, execute_query; simpl; rewrite Hs by reflexivity;
    unfold bind, pget, ret; rewrite A; simpl; [reflexivity |].
  destruct (lookup d "team") as [v |]; [rewrite B |]; reflexivity.
Qed.

(** X6: when the team-by-key lookup finds no team (no [data], or a
    missing, null or empty [team]), [search_issues] keeps the key itself
    as the team filter: after the lookup it posts the search with
    [team.id.eq] equal to the key. *)
Theorem search_unknown_team_key_kept :
  forall server resp t query status assignee_id labels priority limit tr,
  t <> "" -> has_dash t = false ->
  (forall h rq, rq_doc rq = TeamByKeyQ -> server h rq = Some resp) ->
  team_missing resp ->
  fst (search_issues server query (Some t) status assignee_id labels priority limit tr)
  = (tr ++ [mk_request TeamByKeyQ (PDict [("key", PStr t)]);
            mk_request SearchIssuesQ
              (search_variables limit
                 (search_filter query (PStr t) status assignee_id labels priority))])%list /\
  lookup (search_filter query (PStr t) status assignee_id labels priority) "team"
  = Some (PDict [("id", PDict [("eq", PStr t)])]).
Proof.
  intros server resp t query status assignee_id labels priority limit tr Ht Hd Hs Hm.
  split.
  - unfold search_issues.
    rewrite (bind_ok _ _ _ _ _ (search_team_missing _ _ _ _ Ht Hd Hs Hm)).
    rewrite search_try_trace, <- app_assoc; reflexivity.
  - apply search_filter_team; rewrite (truthy_str _ Ht); reflexivity.
Qed.

(** X7: only failures inside the search itself are reported as
    "Search failed: ...": a non-success status of the team-by-key lookup,
    or a lookup answer with a null [data], is raised as it is and no
    search is posted, while a non-success status of the search request
    raises [Exception("Search failed: " + str(e))]. *)
Theorem search_error_layers :
  (forall server t query status assignee_id labels priority limit tr,
     t <> "" -> has_dash t = false ->
     (forall h rq, rq_doc rq = TeamByKeyQ -> server h rq = None) ->
     search_issues server query (Some t) status assignee_id labels priority limit tr
     = ((tr ++ [mk_request TeamByKeyQ (PDict [("key", PStr t)])])%list,
        Raise (HTTPStatusError "non-success response status"))) /\
  (forall server resp t query status assignee_id labels priority limit tr,
     t <> "" -> has_dash t = false ->
     (forall h rq, rq_doc rq = TeamByKeyQ -> server h rq = Some resp) ->
     dig resp ["data"] = Some PNone ->
     search_issues server query (Some t) status assignee_id labels priority limit tr
     = ((tr ++ [mk_request TeamByKeyQ (PDict [("key", PStr t)])])%list, Raise attr_none)) /\
  (forall server query status assignee_id labels priority limit tr,
     (forall h rq, rq_doc rq = SearchIssuesQ -> server h rq = None) ->
     search_issues server query None status assignee_id labels priority limit tr
     = ((tr ++ [mk_request SearchIssuesQ
                  (search_variables limit
                     (search_filter query PNone status assignee_id labels priority))])%list,
        Raise (Exception ("Search failed: " ++ "non-success response status")))).
Proof.
  split; [| split].
  - intros server t query status assignee_id labels priority limit tr Ht Hd Hs.
    unfold search_issues, search_team; rewrite (truthy_str _ Ht), Hd; simpl.
    rewrite !bind_assoc, (bind_raise _ _ _ _ _ (exec_fail _ _ _ _ Hs)); reflexivity.
  - intros server resp t query status assignee_id labels priority limit tr Ht Hd Hs Hn.
    destruct resp as [| | | | | kv]; try discriminate; simpl in Hn.
    destruct (lookup kv "data") as [dv |] eqn:A; [injection Hn as -> | discriminate].
    unfold search_issues, search_team; rewrite (truthy_str _ Ht), Hd; simpl.
    unfold bind at 1 2, execute_query; simpl; rewrite Hs by reflexivity.
    unfold bind, pget, ret, throw; rewrite A; reflexivity.
  - intros server query status assignee_id labels priority limit tr Hs.
    unfold search_issues, search_team; rewrite (bind_ok _ _ _ _ _ eq_refl).
    unfold try_except, search_body.
    rewrite (bind_raise _ _ _ _ _ (exec_fail _ _ _ _ Hs)); reflexivity.
Qed.

(** [xs] is [ys] with some elements left out, in the same order. *)
Fixpoint subseq (xs ys : list string) : bool :=
  match xs, ys with
  | [], _ => true
  | _ :: _, [] => false
  | x :: xs', y :: ys' => if String.eqb x y then subseq xs' ys' else subseq xs ys'
  end.

(** X8: the search filter holds each condition at most once, in the
    order [or], [team], [state], [assignee], [labels], [priority]; unlike
    the other conditions, the priority condition is there exactly when a
    priority is given, also for priority 0. *)
Theorem search_filter_layout :
  forall query team status assignee_id labels priority,
  subseq (map fst (search_filter query team status assignee_id labels priority))
         ["or"; "team"; "state"; "assignee"; "labels"; "priority"] = true /\
  lookup (search_filter query team status assignee_id labels priority) "priority"
  = match priority with Some p => Some (PDict [("eq", PInt p)]) | None => None end.
Proof.
  intros; unfold search_filter.
  destruct (truthy (opt_str query)), (truthy team), (truthy (opt_str status)),
    (truthy (opt_str assignee_id)), (truthy (opt_labels labels)), priority;
    split; reflexivity.
Qed.

Ltac inv_binds H :=
  repeat (apply bind_ok_inv in H; destruct H as (? & ? & _ & H); cbv beta in H).

Lemma add_comment_result server i b cu u tr tr' v :
  add_comment server i b cu u tr = (tr', Ok v) ->
  v = PNone \/
  exists id body user created,
    v = PDict [("id", id); ("body", body); ("user", user); ("created_at", created)].
Proof.
  unfold add_comment; intro H; inv_binds H.
  destruct (negb (truthy _)); [left; injection H as _ <-; reflexivity | right].
  inv_binds H; injection H as _ <-; eauto.
Qed.

(** X9: [linear_add_comment] reads the issue identifier for its message
    from a [comment["issue"]] the client never returns: every comment it
    adds is reported as "Added comment to issue None". *)
Theorem add_comment_message_issue_none :
  forall server issue_id body create_as_user display_icon_url tr tr' v,
  add_comment server issue_id body create_as_user display_icon_url tr = (tr', Ok v) ->
  truthy v = true ->
  Main.linear_add_comment (Some server) issue_id body create_as_user display_icon_url tr
  = (tr', Ok (Dumps (PDict [("message", PStr "Added comment to issue None");
                            ("comment", v)]))).
Proof.
  intros server issue_id body create_as_user display_icon_url tr tr' v H Hv.
  destruct (add_comment_result _ _ _ _ _ _ _ _ H) as [-> | (a & b & c & d & ->)];
    [discriminate |].
  simpl; apply try_ok; rewrite (bind_ok _ _ _ _ _ H); reflexivity.
Qed.

(** X10: when the service reports the mutation as failed ([success]
    absent, null or false), the tools answer with a plain error text and
    no JSON: "Error: Failed to create issue", "Error: Failed to update
    issue", "Error: Failed to add comment".  The mutation is then the
    last request and is posted once: before it come only the lookups of
    the status (the states query for [create_issue]; the issue's team and
    the states queries for [update_issue]). *)
Theorem tools_report_failed_mutations :
  (forall server title team_id description priority status tr o,
     (forall h rq, rq_doc rq = CreateIssueM ->
                   exists r, server h rq = Some r /\ reports_failure "issueCreate" r) ->
     Main.linear_create_issue (Some server) title team_id description priority status []
     = (tr, o) ->
     In CreateIssueM (map rq_doc tr) ->
     o = Ok (Text "Error: Failed to create issue") /\
     exists pre sid,
       tr = (pre ++ [mk_request CreateIssueM
                       (PDict [("input", create_input title team_id description priority
                                           sid)])])%list /\
       Forall (fun rq => rq_doc rq = StatesQ) pre) /\
  (forall server issue_id title description priority status tr o,
     (forall h rq, rq_doc rq = UpdateIssueM ->
                   exists r, server h rq = Some r /\ reports_failure "issueUpdate" r) ->
     Main.linear_update_issue (Some server) issue_id title description priority status []
     = (tr, o) ->
     In UpdateIssueM (map rq_doc tr) ->
     o = Ok (Text "Error: Failed to update issue") /\
     exists pre sid,
       tr = (pre ++ [mk_request UpdateIssueM
                       (update_variables issue_id title description priority sid)])%list /\
       Forall (fun rq => rq_doc rq = IssueTeamQ \/ rq_doc rq = StatesQ) pre) /\
  (forall server r issue_id body create_as_user display_icon_url tr,
     (forall h rq, rq_doc rq = CreateCommentM -> server h rq = Some r) ->
     reports_failure "commentCreate" r ->
     Main.linear_add_comment (Some server) issue_id body create_as_user display_icon_url tr
     = ((tr ++ [mk_request CreateCommentM
                  (PDict [("input", PDict (comment_input issue_id body create_as_user
                                             display_icon_url))])])%list,
        Ok (Text "Error: Failed to add comment"))).
Proof.
  split; [| split].
  - intros server ti te d p st tr o Hsrv Hrun Hin.
    destruct (create_state_id_emits server te st []) as [new [E F]].
    destruct (create_state_id server te st []) as [tr1 [sid | e]] eqn:R;
      simpl in E; subst tr1.
    + destruct (Hsrv new (mk_request CreateIssueM
                            (PDict [("input", create_input ti te d p sid)])))
        as [r [S Hf]]; [reflexivity |].
      assert (C : create_issue server ti te d p st []
                  = ((new ++ [mk_request CreateIssueM
                                (PDict [("input", create_input ti te d p sid)])])%list,
                     Ok PNone)).
      { unfold create_issue; rewrite (bind_ok _ _ _ _ _ R).
        rewrite (bind_ok _ _ _ _ _
                   (exec_at _ _ (PDict [("input", create_input ti te d p sid)]) _ _ S)).
        cbv beta; apply failure_tail, Hf. }
      cbn [Main.linear_create_issue] in Hrun.
      rewrite (try_ok _ _ _ _ _ (bind_ok _ _ _ _ _ C)) in Hrun.
      injection Hrun as <- <-; split; [reflexivity |].
      exists new, sid; split; [reflexivity | exact F].
    + assert (C : create_issue server ti te d p st [] = (new, Raise e))
        by (unfold create_issue; rewrite (bind_raise _ _ _ _ _ R); reflexivity).
      cbn [Main.linear_create_issue] in Hrun.
      rewrite (try_raise _ _ _ _ _ (bind_raise _ _ _ _ _ C)) in Hrun.
      injection Hrun as <- _.
      exfalso; refine (not_in_docs _ _ _ F _ Hin); intros rq ->; discriminate.
  - intros server i ti d p st tr o Hsrv Hrun Hin.
    destruct (update_state_id_emits server i st []) as [new [E F]].
    destruct (update_state_id server i st []) as [tr1 [sid | e]] eqn:R;
      simpl in E; subst tr1.
    + destruct (Hsrv new (mk_request UpdateIssueM (update_variables i ti d p sid)))
        as [r [S Hf]]; [reflexivity |].
      assert (C : update_issue server i ti d p st []
                  = ((new ++ [mk_request UpdateIssueM (update_variables i ti d p sid)])%list,
                     Ok PNone)).
      { unfold update_issue; rewrite (bind_ok _ _ _ _ _ R).
        rewrite (bind_ok _ _ _ _ _ (exec_at _ _ (update_variables i ti d p sid) _ _ S)).
        cbv beta; apply failure_tail, Hf. }
      cbn [Main.linear_update_issue] in Hrun.
      rewrite (try_ok _ _ _ _ _ (bind_ok _ _ _ _ _ C)) in Hrun.
      injection Hrun as <- <-; split; [reflexivity |].
      exists new, sid; split; [reflexivity | exact F].
    + assert (C : update_issue server i ti d p st [] = (new, Raise e))
        by (unfold update_issue; rewrite (bind_raise _ _ _ _ _ R); reflexivity).
      cbn [Main.linear_update_issue] in Hrun.
      rewrite (try_raise _ _ _ _ _ (bind_raise _ _ _ _ _ C)) in Hrun.
      injection Hrun as <- _.
      exfalso; refine (not_in_docs _ _ _ F _ Hin); intros rq [-> | ->]; discriminate.
  - intros server r a b c d tr Hs Hf; simpl; apply try_ok.
    assert (E : add_comment server a b c d tr
                = ((tr ++ [mk_request CreateCommentM
                             (PDict [("input", PDict (comment_input a b c d))])])%list,
                   Ok PNone)).
    { unfold add_comment.
      rewrite (bind_ok _ _ _ _ _ (exec_run _ _ _ _ _ Hs)); cbv beta.
      apply failure_tail, Hf. }
    rewrite (bind_ok _ _ _ _ _ E); reflexivity.
Qed.

Ltac inv_binds_keep H :=
  repeat (apply bind_ok_inv in H; destruct H as (? & ? & ? & H); cbv beta in H).

Lemma map_m_forall {A B} (f : A -> M B) (P : B -> Prop) xs tr tr' ys :
  (forall x tr tr' y, f x tr = (tr', Ok y) -> P y) ->
  map_m f xs tr = (tr', Ok ys) -> Forall P ys.
Proof.
  intro Hf; revert tr tr' ys; induction xs as [| x xs IH]; simpl; intros tr tr' ys H.
  - injection H as _ <-; constructor.
  - apply bind_ok_inv in H; destruct H as (tr1 & y & Hy & H).
    apply bind_ok_inv in H; destruct H as (tr2 & zs & Hz & H).
    injection H as _ <-; constructor; [exact (Hf _ _ _ _ Hy) | exact (IH _ _ _ Hz)].
Qed.

Definition is_dict (v : pyval) : Prop := exists kv, v = PDict kv.

Lemma project_search_issue_dict x tr tr' y :
  project_search_issue x tr = (tr', Ok y) -> is_dict y.
Proof. unfold project_search_issue; intro H; inv_binds H; injection H as _ <-; eexists; eauto. Qed.

Lemma project_user_issue_dict x tr tr' y :
  project_user_issue x tr = (tr', Ok y) -> is_dict y.
Proof. unfold project_user_issue; intro H; inv_binds H; injection H as _ <-; eexists; eauto. Qed.

Lemma listing_tail_dicts f nodes tr tr' v :
  (forall x tr tr' y, f x tr = (tr', Ok y) -> is_dict y) ->
  bind (piter nodes) (fun xs => ys <- map_m f xs ;; ret (PList ys)) tr = (tr', Ok v) ->
  exists ys, v = PList ys /\ Forall is_dict ys.
Proof.
  intros Hf H; inv_binds_keep H; injection H as _ <-.
  eexists; split; [reflexivity | eapply map_m_forall; eauto].
Qed.

Lemma search_issues_dicts server q t s a l p n tr tr' v :
  search_issues server q t s a l p n tr = (tr', Ok v) ->
  exists ys, v = PList ys /\ Forall is_dict ys.
Proof.
  unfold search_issues; intro H; apply bind_ok_inv in H; destruct H as (tr1 & team & _ & H).
  unfold try_except in H; destruct (search_body _ _ _) as [tr2 [b | e]] eqn:E;
    [injection H as -> <- | discriminate].
  unfold search_body in E; apply bind_ok_inv in E; destruct E as (? & ? & _ & E).
  apply bind_ok_inv in E; destruct E as (? & ? & _ & E); cbv beta in E.
  destruct (negb (truthy _)).
  - inv_binds E; discriminate.
  - apply bind_ok_inv in E; destruct E as (? & ? & _ & E); cbv beta in E.
    apply bind_ok_inv in E; destruct E as (? & ? & _ & E); cbv beta in E.
    exact (listing_tail_dicts _ _ _ _ _ project_search_issue_dict E).
Qed.

Lemma get_user_issues_dicts server u ia n tr tr' v :
  get_user_issues server u ia n tr = (tr', Ok v) ->
  exists ys, v = PList ys /\ Forall is_dict ys.
Proof.
  unfold get_user_issues; intro H; apply bind_ok_inv in H; destruct H as (? & ? & _ & H).
  exact (listing_tail_dicts _ _ _ _ _ project_user_issue_dict H).
Qed.

Lemma issue_lines_run u ys tr :
  Forall is_dict ys ->
  exists lines, map_m (issue_line u) ys tr = (tr, Ok lines) /\ length lines = length ys.
Proof.
  induction 1 as [| y ys [kv ->] _ [lines [E L]]]; [exists []; split; reflexivity |].
  exists (("- " ++ py_str (match lookup kv "identifier" with Some v => v | None => PNone end)
           ++ ": " ++ py_str (match lookup kv "title" with Some v => v | None => PNone end)
           ++ nl ++ "  " ++ "Priority: "
           ++ or_text (match lookup kv "priority" with Some v => v | None => PNone end) "None"
           ++ ", " ++ "Status: "
           ++ or_text (match lookup kv "state" with Some v => v | None => PNone end) u
           ++ nl ++ "  " ++ py_str (match lookup kv "url" with Some v => v | None => PNone end))
          :: lines).
  simpl; split; [| rewrite L; reflexivity].
  unfold bind at 1; simpl; unfold bind at 1; rewrite E; reflexivity.
Qed.

(** X11: once [search_issues] or [get_user_issues] has returned, the tool
    cannot fail: the result is a list of issues [ys], each rendered
    without failure into its text line ([issue_line], with "None"
    resp. "Unknown" for a missing state or assignee), and the tool answers
    with the JSON message "Found <n> matching issues" (resp. "Found <n>
    assigned issues"), the issues, and a text "Found <n> issues:" followed
    by exactly those lines, where [n] is the number of issues returned;
    whatever the [estimate] and [include_archived] arguments of
    [linear_search_issues], the answer is the same. *)
Theorem tools_list_results :
  (forall server q t s a l p n tr tr' v,
     search_issues server q t s a l p n tr = (tr', Ok v) ->
     exists ys lines,
       v = PList ys /\
       map_m (issue_line "None") ys tr' = (tr', Ok lines) /\
       length lines = length ys /\
       forall est ia,
         Main.linear_search_issues (Some server) q t s a l p est ia n tr
         = (tr', Ok (Dumps (PDict
             [("message", PStr ("Found " ++ z_to_string (Z.of_nat (length ys))
                                ++ " matching issues"));
              ("issues", PList ys);
              ("text", PStr ("Found " ++ z_to_string (Z.of_nat (length ys)) ++ " issues:"
                             ++ nl ++ join nl lines))])))) /\
  (forall server u ia n tr tr' v,
     get_user_issues server u ia n tr = (tr', Ok v) ->
     exists ys lines,
       v = PList ys /\
       map_m (issue_line "Unknown") ys tr' = (tr', Ok lines) /\
       length lines = length ys /\
       Main.linear_get_user_issues (Some server) u ia n tr
       = (tr', Ok (Dumps (PDict
           [("message", PStr ("Found " ++ z_to_string (Z.of_nat (length ys))
                              ++ " assigned issues"));
            ("issues", PList ys);
            ("text", PStr ("Found " ++ z_to_string (Z.of_nat (length ys)) ++ " issues:"
                           ++ nl ++ join nl lines))])))).
Proof.
  split.
  - intros server q t s a l p n tr tr' v H.
    destruct (search_issues_dicts _ _ _ _ _ _ _ _ _ _ _ H) as (ys & -> & D).
    destruct (issue_lines_run "None" ys tr' D) as (lines & E & L).
    exists ys, lines; split; [reflexivity | split; [exact E | split; [exact L |]]].
    intros est ia; simpl; apply try_ok; rewrite (bind_ok _ _ _ _ _ H); simpl.
    unfold bind at 1; simpl; unfold bind at 1; rewrite E; reflexivity.
  - intros server u ia n tr tr' v H.
    destruct (get_user_issues_dicts _ _ _ _ _ _ _ H) as (ys & -> & D).
    destruct (issue_lines_run "Unknown" ys tr' D) as (lines & E & L).
    exists ys, lines; split; [reflexivity | split; [exact E | split; [exact L |]]].
    simpl; apply try_ok; rewrite (bind_ok _ _ _ _ _ H); simpl.
    unfold bind at 1; simpl; unfold bind at 1; rewrite E; reflexivity.
Qed.

(** A response whose data payload (an object, or absent) has nothing
    under [field], or an object without an [id] key. *)
Definition entity_missing (r : pyval) (field : string) : Prop :=
  exists kv,
    r = PDict kv /\
    (lookup kv "data" = None \/
     exists d, lookup kv "data" = Some (PDict d) /\
       (lookup d field = None \/
        exists e, lookup d field = Some (PDict e) /\ lookup e "id" = None)).

Lemma get_viewer_missing server resp tr :
  (forall h rq, rq_doc rq = ViewerQ -> server h rq = Some resp) ->
  entity_missing resp "viewer" ->
  get_viewer server tr = ((tr ++ [mk_request ViewerQ dict0])%list, Raise (KeyError "'id'")).
Proof.
  intros Hs (kv & -> & A); unfold get_viewer, bind at 1, execute_query; simpl.
  rewrite Hs by reflexivity; unfold bind, pget, pitem, ret, throw.
  destruct A as [A | (d & A & [B | (e & B & C)])]; rewrite A; try rewrite B; simpl;
    try rewrite A; try rewrite C; reflexivity.
Qed.

Lemma get_organization_missing server resp tr :
  (forall h rq, rq_doc rq = OrganizationQ -> server h rq = Some resp) ->
  entity_missing resp "organization" ->
  get_organization server tr
  = ((tr ++ [mk_request OrganizationQ dict0])%list, Raise (KeyError "'id'")).
Proof.
  intros Hs (kv & -> & A); unfold get_organization, bind at 1, execute_query; simpl.
  rewrite Hs by reflexivity; unfold bind, pget, pitem, ret, throw.
  destruct A as [A | (d & A & [B | (e & B & C)])]; rewrite A; try rewrite B; simpl;
    try rewrite C; reflexivity.
Qed.

(** X12: [get_viewer] and [get_organization] have no not-found case: when
    the answer has no viewer (resp. organization), or one without an
    [id] key, indexing it raises [KeyError('id')], and the resource answers
    [{"error": "Failed to get viewer: 'id'"}] (resp. "Failed to get
    organization: 'id'") after its one request. *)
Theorem viewer_organization_missing :
  (forall server resp tr,
     (forall h rq, rq_doc rq = ViewerQ -> server h rq = Some resp) ->
     entity_missing resp "viewer" ->
     get_viewer server tr = ((tr ++ [mk_request ViewerQ dict0])%list, Raise (KeyError "'id'")) /\
     Main.get_viewer (Some server) tr
     = ((tr ++ [mk_request ViewerQ dict0])%list,
        Ok (PDict [("error", PStr "Failed to get viewer: 'id'")]))) /\
  (forall server resp tr,
     (forall h rq, rq_doc rq = OrganizationQ -> server h rq = Some resp) ->
     entity_missing resp "organization" ->
     get_organization server tr
     = ((tr ++ [mk_request OrganizationQ dict0])%list, Raise (KeyError "'id'")) /\
     Main.get_organization (Some server) tr
     = ((tr ++ [mk_request OrganizationQ dict0])%list,
        Ok (PDict [("error", PStr "Failed to get organization: 'id'")]))).
Proof.
  split; intros server resp tr Hs Hm.
  - pose proof (get_viewer_missing _ _ tr Hs Hm) as R; split; [exact R |].
    simpl; rewrite (try_raise _ _ _ _ _ (bind_raise _ _ _ _ _ R)); reflexivity.
  - pose proof (get_organization_missing _ _ tr Hs Hm) as R; split; [exact R |].
    simpl; rewrite (try_raise _ _ _ _ _ (bind_raise _ _ _ _ _ R)); reflexivity.
Qed.

Lemma try_ret_trace {A B} (m : M A) (f : A -> B) (h : exn -> B) tr :
  fst (try_except (x <- m ;; ret (f x)) (fun e => ret (h e)) tr) = fst (m tr).
Proof. unfold try_except, bind; destruct (m tr) as [tr1 [a | e]]; reflexivity. Qed.

Lemma get_user_issues_trace server u ia n tr :
  fst (get_user_issues server u ia n tr)
  = (tr ++ [if truthy (opt_str u)
            then mk_request UserIssuesQ
                   (PDict [("userId", opt_str u); ("first", PInt n);
                           ("includeArchived", PBool ia)])
            else mk_request ViewerIssuesQ
                   (PDict [("first", PInt n); ("includeArchived", PBool ia)])])%list.
Proof.
  unfold get_user_issues; destruct (truthy (opt_str u));
    rewrite bind_exec_trace2 by (intro; pure_costs); reflexivity.
Qed.

(** X13: the resource [linear-user:///{user_id}/assigned] asks for the
    viewer's issues when [user_id] is "me" and also when it is empty,
    and for the issues of [user_id] otherwise; in both cases 50 issues,
    archived ones excluded, in one request. *)
Theorem user_assigned_request :
  forall server user_id tr,
  fst (Main.get_user_assigned (Some server) user_id tr)
  = (tr ++ [if String.eqb user_id "me" || String.eqb user_id ""
            then mk_request ViewerIssuesQ
                   (PDict [("first", PInt 50); ("includeArchived", PBool false)])
            else mk_request UserIssuesQ
                   (PDict [("userId", PStr user_id); ("first", PInt 50);
                           ("includeArchived", PBool false)])])%list.
Proof.
  intros server user_id tr; simpl.
  rewrite (try_ret_trace _ Main.resource_data), get_user_issues_trace.
  destruct (String.eqb user_id "me") eqn:E; [reflexivity |].
  simpl; destruct (String.eqb user_id ""); reflexivity.
Qed.

(** ** Witnesses of the properties above *)

(** An issue node with every key the projections read. *)
Definition full_issue_node : pyval :=
  PDict [("id", PStr "i-1"); ("identifier", PStr "ENG-1"); ("title", PStr "Fix login bug");
         ("description", PStr "d"); ("priority", PInt 0);
         ("state", PDict [("name", PStr "Todo")]);
         ("assignee", PDict [("id", PStr "u-1"); ("name", PStr "Ann")]);
         ("team", PDict [("id", PStr "t-1"); ("key", PStr "ENG"); ("name", PStr "Eng")]);
         ("labels", PDict [("nodes", PList [PDict [("name", PStr "bug")]])]);
         ("url", PStr "u"); ("createdAt", PStr "c")].

Definition listing_nodes : pyval :=
  PDict [("nodes", PList [full_issue_node; full_issue_node])].

(** A service listing two such issues wherever a listing is asked for. *)
Definition listing_server (h : trace) (rq : request) : option pyval :=
  let nodes := listing_nodes in
  match rq_doc rq with
  | ListIssuesQ | SearchIssuesQ => Some (PDict [("data", PDict [("issues", nodes)])])
  | GetTeamIssuesQ => Some (PDict [("data", PDict [("team", PDict [("issues", nodes)])])])
  | UserIssuesQ => Some (PDict [("data", PDict [("user", PDict [("assignedIssues", nodes)])])])
  | ViewerIssuesQ =>
      Some (PDict [("data", PDict [("viewer", PDict [("assignedIssues", nodes)])])])
  | CreateCommentM =>
      Some (PDict [("data", PDict [("commentCreate", PDict [("success", PBool true);
              ("comment", PDict [("id", PStr "c-1"); ("body", PStr "hi");
                                 ("user", PNone); ("createdAt", PStr "c")])])])])
  | TeamByKeyQ => Some (PDict [("data", PDict [("team", PNone)])])
  | StatesQ => Some (PDict [("data", PNone)])
  | IssueTeamQ => Some (PDict [("data", PDict [("issue", PDict [("id", PStr "i-1")])])])
  | _ => None
  end.

Ltac server_answers :=
  let Hq := fresh "Hq" in
  intros ? ? Hq; try (unfold listing_server, demo_server; rewrite Hq); reflexivity.

Lemma main_tools_report_errors_witness :
  Main.linear_search_issues (Some demo_server) None None None None None None None None 10 []
  = ([mk_request SearchIssuesQ (search_variables 10 [])],
     Ok (Text ("Error: Failed to search issues - " ++ "Search failed: Boom"))).
Proof.
  apply (proj1 (proj2 (proj2 (proj2 (main_tools_report_errors (Some demo_server) [])
                                      demo_server _ (Exception "Search failed: Boom"))))).
  vm_compute; reflexivity.
Defined.

Lemma listings_one_record_per_node_witness :
  (exists ys, snd (list_issues listing_server 5 []) = Ok (PList ys) /\ length ys = 2) /\
  (exists ys, snd (search_issues listing_server None None None None None None 5 [])
              = Ok (PList ys) /\ length ys = 2).
Proof.
  split.
  - destruct (list_issues listing_server 5 []) as [tr' [v | e]] eqn:E;
      [| vm_compute in E; discriminate].
    destruct (proj1 listings_one_record_per_node listing_server
                (PDict [("data", PDict [("issues", listing_nodes)])])
                [full_issue_node; full_issue_node] 5%Z [] tr' v) as (ys & -> & L);
      [server_answers | reflexivity | exact E |].
    exists ys; split; [reflexivity | exact L].
  - destruct (search_issues listing_server None None None None None None 5 [])
      as [tr' [v | e]] eqn:E; [| vm_compute in E; discriminate].
    destruct (proj2 (proj2 (proj2 listings_one_record_per_node)) listing_server
                (PDict [("data", PDict [("issues", listing_nodes)])])
                [full_issue_node; full_issue_node] None None None None None None 5%Z [] tr' v)
      as (ys & -> & L); [server_answers | reflexivity | exact E |].
    exists ys; split; [reflexivity | exact L].
Defined.

Lemma unresolvable_status_witness :
  create_issue listing_server "Fix login bug" "TEAM-1" None None (Some "Done") []
  = ([mk_request StatesQ (PDict [("teamId", PStr "TEAM-1")])], Raise attr_none) /\
  fst (update_issue listing_server "i-1" None None None (Some "Done") [])
  = [mk_request IssueTeamQ (PDict [("id", PStr "i-1")]);
     mk_request UpdateIssueM (update_variables "i-1" None None None PNone)].
Proof.
  split.
  - apply (proj1 unresolvable_status listing_server (PDict [("data", PNone)]));
      [discriminate | server_answers | left; reflexivity].
  - apply (proj2 (proj2 unresolvable_status) listing_server
             (PDict [("data", PDict [("issue", PDict [("id", PStr "i-1")])])])
             [("id", PStr "i-1")]); [discriminate | server_answers | reflexivity | reflexivity].
Defined.

Lemma search_unknown_team_key_kept_witness :
  fst (search_issues listing_server None (Some "OPS") None None None None 10 [])
  = [mk_request TeamByKeyQ (PDict [("key", PStr "OPS")]);
     mk_request SearchIssuesQ
       (search_variables 10 (search_filter None (PStr "OPS") None None None None))] /\
  lookup (search_filter None (PStr "OPS") None None None None) "team"
  = Some (PDict [("id", PDict [("eq", PStr "OPS")])]).
Proof.
  apply (search_unknown_team_key_kept listing_server
           (PDict [("data", PDict [("team", PNone)])])); [discriminate | reflexivity | server_answers |].
  eexists; split; [reflexivity | right; eexists; split; reflexivity].
Defined.

Lemma search_error_layers_witness :
  search_issues (fun _ _ => None) None (Some "OPS") None None None None 10 []
  = ([mk_request TeamByKeyQ (PDict [("key", PStr "OPS")])],
     Raise (HTTPStatusError "non-success response status")) /\
  search_issues (fun _ _ => Some (PDict [("data", PNone)])) None (Some "OPS")
    None None None None 10 []
  = ([mk_request TeamByKeyQ (PDict [("key", PStr "OPS")])], Raise attr_none) /\
  search_issues (fun _ _ => None) None None None None None None 10 []
  = ([mk_request SearchIssuesQ (search_variables 10 (search_filter None PNone None None None None))],
     Raise (Exception ("Search failed: " ++ "non-success response status"))).
Proof.
  split; [| split].
  - apply (proj1 search_error_layers (fun _ _ => None)); [discriminate | reflexivity | server_answers].
  - apply (proj1 (proj2 search_error_layers) (fun _ _ => Some (PDict [("data", PNone)]))
             (PDict [("data", PNone)])); [discriminate | reflexivity | server_answers |].
    reflexivity.
  - apply (proj2 (proj2 search_error_layers) (fun _ _ => None)); server_answers.
Defined.

Lemma add_comment_message_issue_none_witness :
  Main.linear_add_comment (Some listing_server) "i-1" "hi" None None []
  = ([mk_request CreateCommentM (PDict [("input", PDict (comment_input "i-1" "hi" None None))])],
     Ok (Dumps (PDict [("message", PStr "Added comment to issue None");
                       ("comment", PDict [("id", PStr "c-1"); ("body", PStr "hi");
                                          ("user", PNone); ("created_at", PStr "c")])]))).
Proof. apply add_comment_message_issue_none; vm_compute; reflexivity. Defined.

Lemma resources_report_missing_entities_witness :
  Main.get_issue (Some demo_server) "I-404" []
  = ([mk_request GetIssueQ (PDict [("id", PStr "I-404")])],
     Ok (PDict [("error", PStr ("Failed to get issue: Issue " ++ "I-404" ++ " not found"))])) /\
  Main.get_team_issues (Some (fun _ _ => Some not_found_response)) "T-404" []
  = ([mk_request GetTeamIssuesQ (PDict [("teamId", PStr "T-404")])],
     Ok (PDict [("error", PStr ("Failed to get team issues: '" ++ type_name PNone
                                ++ "' object has no attribute 'get'"))])).
Proof.
  split.
  - refine (proj1 (proj1 (proj2 resources_report_missing_entities) demo_server
                     (PDict [("data", PDict [("issue", PNone)])]) "I-404" [] eq_refl) _).
    eexists; split; [reflexivity |].
    right; eexists; split; reflexivity.
  - refine (proj2 (proj2 (proj2 resources_report_missing_entities)
                     (fun _ _ => Some not_found_response) not_found_response "T-404" []
                     eq_refl) PNone _).
    eexists; split; [reflexivity | split; [reflexivity | discriminate]].
Defined.

Lemma tools_report_failed_mutations_witness :
  (In CreateIssueM (map rq_doc (fst (Main.linear_create_issue (Some demo_server)
      "Fix login bug" "TEAM-1" None None (Some "In Progress") []))) /\
   snd (Main.linear_create_issue (Some demo_server)
      "Fix login bug" "TEAM-1" None None (Some "In Progress") [])
   = Ok (Text "Error: Failed to create issue")) /\
  (In UpdateIssueM (map rq_doc (fst (Main.linear_update_issue (Some demo_server)
      "I-1" None None None (Some "Todo") []))) /\
   snd (Main.linear_update_issue (Some demo_server) "I-1" None None None (Some "Todo") [])
   = Ok (Text "Error: Failed to update issue")).
Proof.
  split; split; [vm_compute; tauto | | vm_compute; tauto |].
  - destruct (Main.linear_create_issue (Some demo_server)
                "Fix login bug" "TEAM-1" None None (Some "In Progress") [])
      as [tr o] eqn:E.
    refine (proj1 (proj1 tools_report_failed_mutations demo_server _ _ _ _ _ tr o _ E _)).
    + intros h rq Hq; eexists; split; [unfold demo_server; rewrite Hq; reflexivity |].
      do 3 eexists; split; [reflexivity | split; [reflexivity | split; [reflexivity |]]].
      right; right; reflexivity.
    + vm_compute in E; injection E as <- _; simpl; tauto.
  - destruct (Main.linear_update_issue (Some demo_server) "I-1" None None None (Some "Todo") [])
      as [tr o] eqn:E.
    refine (proj1 (proj1 (proj2 tools_report_failed_mutations) demo_server
                     _ _ _ _ _ tr o _ E _)).
    + intros h rq Hq; eexists; split; [unfold demo_server; rewrite Hq; reflexivity |].
      do 3 eexists; split; [reflexivity | split; [reflexivity | split; [reflexivity |]]].
      right; right; reflexivity.
    + vm_compute in E; injection E as <- _; simpl; tauto.
Defined.

Lemma tools_list_results_witness :
  exists ys lines,
    length ys = 2 /\ length lines = 2 /\
    Main.linear_search_issues (Some listing_server) None None None None None None
      (Some 3%Z) (Some true) 5 []
    = ([mk_request SearchIssuesQ (search_variables 5 [])],
       Ok (Dumps (PDict [("message", PStr ("Found " ++ z_to_string 2 ++ " matching issues"));
                         ("issues", PList ys);
                         ("text", PStr ("Found " ++ z_to_string 2 ++ " issues:" ++ nl
                                        ++ join nl lines))]))).
Proof.
  destruct (search_issues listing_server None None None None None None 5 [])
    as [tr' [v | e]] eqn:E; [| vm_compute in E; discriminate].
  destruct (proj1 tools_list_results listing_server None None None None None None
              5%Z [] tr' v E) as (ys & lines & Hv & _ & L & R).
  assert (Ly : length ys = 2)
    by (vm_compute in E; injection E as _ Ev; rewrite Hv in Ev; injection Ev as <-; reflexivity).
  assert (Et : tr' = [mk_request SearchIssuesQ (search_variables 5 [])])
    by (vm_compute in E; injection E as <- _; reflexivity).
  exists ys, lines; split; [exact Ly | split; [congruence |]].
  rewrite (R (Some 3%Z) (Some true)), Ly, Et; reflexivity.
Defined.

Lemma viewer_organization_missing_witness :
  Main.get_viewer
    (Some (fun _ _ => Some (PDict [("data", PDict [("viewer",
             PDict [("name", PStr "Ada"); ("email", PStr "ada@example.com")])])]))) []
  = ([mk_request ViewerQ dict0], Ok (PDict [("error", PStr "Failed to get viewer: 'id'")])) /\
  Main.get_organization (Some demo_server) []
  = ([mk_request OrganizationQ dict0],
     Ok (PDict [("error", PStr "Failed to get organization: 'id'")])).
Proof.
  split.
  - refine (proj2 (proj1 viewer_organization_missing
      (fun _ _ => Some (PDict [("data", PDict [("viewer",
         PDict [("name", PStr "Ada"); ("email", PStr "ada@example.com")])])]))
      (PDict [("data", PDict [("viewer",
         PDict [("name", PStr "Ada"); ("email", PStr "ada@example.com")])])]) []
      (fun _ _ _ => eq_refl) _)).
    eexists; split; [reflexivity |].
    right; eexists; split; [reflexivity | right; eexists; split; reflexivity].
  - refine (proj2 (proj2 viewer_organization_missing demo_server (PDict [("data", dict0)]) []
             ltac:(server_answers) _)).
    eexists; split; [reflexivity | right; eexists; split; [reflexivity | left; reflexivity]].
Defined.
